(** * sketchup-mcp example scripts: what they send, decode and log

    The repository holds five example scripts (under [examples/]) and one
    smoke test ([test_eval_ruby.py]).  Each sends constant Ruby text to
    SketchUp through [eval_ruby], decodes the answer with [json.loads] and
    logs or prints what it finds.

    The development has three layers:
    - [Py]: the Python values and exceptions the scripts handle, and the
      operations they apply to them ([dict.get], truthiness, subscripting,
      iteration);
    - [Json]: [json.loads] as CPython's decoder performs it on a [str],
      within the interpreter's limits on recursion and on the digits of
      an integer;
    - [Script]: a state-and-exception monad recording every observable
      effect (connection, remote request, log record, printed line), and
      the six programs written in it, statement by statement.

    A Python [str] is represented by its UTF-8 bytes in a Rocq [string]. *)

From Stdlib Require Import Bool Arith ZArith Lia List Ascii String.
#[local] Set Warnings "-register-all".
Import ListNotations.
Open Scope string_scope.

(** ** Text helpers *)

(** The double-quote character, spliced into constants that contain it. *)
Definition dq : string := String (ascii_of_nat 34) EmptyString.

(** [s * n] on Python strings, as in ["-" * 40]. *)
Fixpoint str_mul (s : string) (n : nat) : string :=
  match n with
  | O => EmptyString
  | S k => s ++ str_mul s k
  end.

(** [sep.join(parts)]. *)
Fixpoint str_join (sep : string) (parts : list string) : string :=
  match parts with
  | [] => EmptyString
  | [p] => p
  | p :: rest => p ++ sep ++ str_join sep rest
  end.

(** A byte of the form 10xxxxxx continues a UTF-8 sequence. *)
Definition is_continuation (c : ascii) : bool :=
  let n := nat_of_ascii c in ((128 <=? n) && (n <? 192))%nat.

(** The characters of a [str], one string per code point: what
    [for ch in s] yields. *)
Fixpoint str_chars_aux (cur : string) (s : string) : list string :=
  match s with
  | EmptyString => match cur with EmptyString => [] | _ => [cur] end
  | String c rest =>
      if is_continuation c then str_chars_aux (cur ++ String c EmptyString) rest
      else match cur with
           | EmptyString => str_chars_aux (String c EmptyString) rest
           | _ => cur :: str_chars_aux (String c EmptyString) rest
           end
  end.

Definition str_chars (s : string) : list string := str_chars_aux EmptyString s.

(** ** Python values and exceptions *)

Module Py.

(** A [float] read by the decoder.  A finite one is kept as the exact
    decimal [(-1)^neg * mant * 10^exp10] that was read; Python rounds it
    to a binary64, which here only matters for truthiness (see
    [float_nonzero]). *)
Inductive pyfloat :=
| FDec (neg : bool) (mant : Z) (exp10 : Z)
| FNaN
| FInf (neg : bool).

(** What [json.loads] can return.  A [dict] keeps insertion order and
    has no two entries with the same key. *)
Inductive value :=
| VNone
| VBool (b : bool)
| VInt (n : Z)
| VFloat (f : pyfloat)
| VStr (s : string)
| VList (items : list value)
| VDict (entries : list (string * value)).

(** Messages of [json.JSONDecodeError]. *)
Inductive decode_msg :=
| ExpectingValue
| ExtraData
| UnexpectedBOM
| UnterminatedString
| InvalidControlCharacter
| InvalidEscape
| InvalidUnicodeEscape
| ExpectingPropertyName
| ExpectingColon
| ExpectingComma.

(** The exceptions the scripts can meet. *)
Inductive exn :=
| JSONDecodeError (m : decode_msg)
| AttributeError
| TypeError
| KeyError (key : string)
| RecursionError
| ValueError
| StopIteration.

Definition is_JSONDecodeError (e : exn) : bool :=
  match e with JSONDecodeError _ => true | _ => false end.

(** The outcome of evaluating an expression. *)
Inductive res (A : Type) :=
| Ok (a : A)
| Raise (e : exn).
Arguments Ok {A} a.
Arguments Raise {A} e.

(** A decimal [mant * 10^exp10] with [0 <= mant] rounds to a nonzero
    binary64 exactly when it is above [2^-1075], half the smallest
    subnormal (the tie rounds to even, that is to zero). *)
Definition float_nonzero (mant exp10 : Z) : bool :=
  if (mant =? 0)%Z then false
  else if (0 <=? exp10)%Z then true
  else (10 ^ (- exp10) <? mant * 2 ^ 1075)%Z.

(** [bool(v)]. *)
Definition truthy (v : value) : bool :=
  match v with
  | VNone => false
  | VBool b => b
  | VInt n => negb (n =? 0)%Z
  | VFloat (FDec _ m e) => float_nonzero m e
  | VFloat FNaN => true
  | VFloat (FInf _) => true
  | VStr s => negb (String.eqb s EmptyString)
  | VList items => match items with [] => false | _ => true end
  | VDict entries => match entries with [] => false | _ => true end
  end.

Fixpoint lookup (k : string) (entries : list (string * value)) : option value :=
  match entries with
  | [] => None
  | (k', v) :: rest => if String.eqb k k' then Some v else lookup k rest
  end.

(** [d[k] = v] on the entries of a dict: an existing key keeps its place. *)
Fixpoint store (k : string) (v : value) (entries : list (string * value))
  : list (string * value) :=
  match entries with
  | [] => [(k, v)]
  | (k', v') :: rest =>
      if String.eqb k k' then (k', v) :: rest else (k', v') :: store k v rest
  end.

(** [dict(pairs)]. *)
Definition dict_of_pairs (pairs : list (string * value)) : list (string * value) :=
  fold_left (fun acc kv => store (fst kv) (snd kv) acc) pairs [].

(** [v.get(k, default)]: only a dict has the method. *)
Definition get_default (v : value) (k : string) (default : value) : res value :=
  match v with
  | VDict entries =>
      Ok (match lookup k entries with Some x => x | None => default end)
  | _ => Raise AttributeError
  end.

(** [v.get(k)]. *)
Definition get (v : value) (k : string) : res value := get_default v k VNone.

(** [v[k]] with a string key. *)
Definition subscript (v : value) (k : string) : res value :=
  match v with
  | VDict entries =>
      match lookup k entries with
      | Some x => Ok x
      | None => Raise (KeyError k)
      end
  | _ => Raise TypeError
  end.

(** The items [for x in v] visits. *)
Definition iterate (v : value) : res (list value) :=
  match v with
  | VList items => Ok items
  | VStr s => Ok (map VStr (str_chars s))
  | VDict entries => Ok (map (fun kv => VStr (fst kv)) entries)
  | _ => Raise TypeError
  end.

(** [v.items()]. *)
Definition items (v : value) : res (list (string * value)) :=
  match v with
  | VDict entries => Ok entries
  | _ => Raise AttributeError
  end.

End Py.

(** ** [json.loads]

    The decoder of CPython 3.11's [json] package with its default
    settings (strict strings, [NaN] and [Infinity] accepted), following
    the C scanner's own order of tests, within the two limits of the
    interpreter that it can run into: the depth of recursion and the
    number of digits of an integer. *)

Module Json.
Import Py.

(** The limits of the interpreter.  [max_depth] is the number of
    levels of recursion left to the scanner when [json.loads] has
    called it: what is left of [sys.getrecursionlimit()] where the
    script calls [json.loads], less the four calls that lead to the
    scanner.  The scanner takes one level for each object or array it
    is in; a call it makes to Python takes levels too.  The model covers
    the interpreters that leave the scanner three levels at least,
    [spare_depth] being what they leave above three: a script that has
    written a log record or imported a module had many more.
    [int_max_str_digits] is [sys.get_int_max_str_digits()], where [0]
    means no limit. *)
Record limits := {
  spare_depth : nat;
  int_max_str_digits : nat
}.

Definition max_depth (l : limits) : nat := 3 + spare_depth l.

(** CPython 3.11 as it starts: a recursion limit of 1000, which leaves
    994 levels to the scanner when [json.loads] is called in a function
    that the module calls, as [main] is, and 4300 digits. *)
Definition default_limits : limits :=
  {| spare_depth := 991; int_max_str_digits := 4300 |}.

Definition code (c : ascii) : nat := nat_of_ascii c.

(** The decoder's whitespace: space, tab, line feed, carriage return. *)
Definition is_ws (c : ascii) : bool :=
  let n := code c in
  (Nat.eqb n 32 || Nat.eqb n 9 || Nat.eqb n 10 || Nat.eqb n 13)%bool.

Fixpoint skip_ws (s : string) : string :=
  match s with
  | String c rest => if is_ws c then skip_ws rest else s
  | EmptyString => s
  end.

Definition is_digit (c : ascii) : bool :=
  let n := code c in ((48 <=? n) && (n <=? 57))%nat.

Definition digit_val (c : ascii) : Z := Z.of_nat (code c - 48).

(** [s[len(p):]] when [s] starts with [p]. *)
Fixpoint strip_prefix (p s : string) : option string :=
  match p, s with
  | EmptyString, _ => Some s
  | String a p', String b s' =>
      if Ascii.eqb a b then strip_prefix p' s' else None
  | String _ _, EmptyString => None
  end.

(** The longest run of decimal digits at the head of [s]: its value on
    top of [acc], the number of digits read on top of [n], and the rest. *)
Fixpoint digits (acc : Z) (n : Z) (s : string) : Z * Z * string :=
  match s with
  | String c rest =>
      if is_digit c then digits (10 * acc + digit_val c) (n + 1) rest
      else (acc, n, s)
  | EmptyString => (acc, n, s)
  end.

(** The integer part: [0], or a nonzero digit followed by digits; its
    value, the number of its digits and the rest. *)
Definition int_part (s : string) : option (Z * Z * string) :=
  match s with
  | String c rest =>
      if Nat.eqb (code c) 48 then Some (0%Z, 1%Z, rest)
      else if is_digit c then Some (digits 0 0 s)
      else None
  | EmptyString => None
  end.

(** The fraction: a dot followed by at least one digit. *)
Definition frac_part (s : string) : option (Z * Z * string) :=
  match s with
  | String dot (String c rest as after) =>
      if (Nat.eqb (code dot) 46 && is_digit c)%bool
      then Some (digits 0 0 after) else None
  | _ => None
  end.

(** The exponent: [e] or [E], an optional sign, at least one digit. *)
Definition exp_part (s : string) : option (Z * string) :=
  match s with
  | String e after =>
      if (Nat.eqb (code e) 101 || Nat.eqb (code e) 69)%bool then
        let '(minus, after') :=
          match after with
          | String sg r =>
              if Nat.eqb (code sg) 45 then (true, r)
              else if Nat.eqb (code sg) 43 then (false, r)
              else (false, after)
          | EmptyString => (false, after)
          end in
        match after' with
        | String c _ =>
            if is_digit c then
              let '(v, _, rest) := digits 0 0 after' in
              Some (if minus then (- v)%Z else v, rest)
            else None
        | EmptyString => None
        end
      else None
  | EmptyString => None
  end.

(** [int(text)] refuses a decimal literal of [n] digits when [n] is
    above the limit; the interpreter makes the test above 640 digits
    only. *)
Definition too_many_digits (l : limits) (n : Z) : bool :=
  ((640 <? n) && (0 <? Z.of_nat (int_max_str_digits l))
   && (Z.of_nat (int_max_str_digits l) <? n))%Z%bool.

(** A number at the head of [s]: an [int] when it has neither fraction
    nor exponent, a [float] otherwise.  [None] when no number starts
    there; the conversion of an [int] can raise [ValueError]. *)
Definition match_number (l : limits) (s : string) : option (res (value * string)) :=
  let '(neg, s1) :=
    match s with
    | String c rest => if Nat.eqb (code c) 45 then (true, rest) else (false, s)
    | EmptyString => (false, s)
    end in
  match int_part s1 with
  | None => None
  | Some (i, n_int, s2) =>
      match frac_part s2, exp_part s2 with
      | None, None =>
          if too_many_digits l n_int then Some (Raise ValueError)
          else Some (Ok (VInt (if neg then (- i)%Z else i), s2))
      | None, Some (e, s3) => Some (Ok (VFloat (FDec neg i e), s3))
      | Some (f, n, s3), _ =>
          let mant := (i * 10 ^ n + f)%Z in
          match exp_part s3 with
          | None => Some (Ok (VFloat (FDec neg mant (- n)), s3))
          | Some (e, s4) => Some (Ok (VFloat (FDec neg mant (e - n)), s4))
          end
      end
  end.

(** Raising [JSONDecodeError] from inside the scanner calls the class
    of the exception, its [__init__] and, in there, a method of [str]:
    three levels of recursion.  With fewer than three left the call
    raises [RecursionError] instead. *)
Definition raise_errmsg {A} (depth : nat) (m : decode_msg) : res A :=
  if (depth <? 3)%nat then Raise RecursionError else Raise (JSONDecodeError m).

(** *** Strings *)

Definition hex_val (c : ascii) : option N :=
  let n := code c in
  if ((48 <=? n) && (n <=? 57))%nat then Some (N.of_nat (n - 48))
  else if ((97 <=? n) && (n <=? 102))%nat then Some (N.of_nat (n - 87))
  else if ((65 <=? n) && (n <=? 70))%nat then Some (N.of_nat (n - 55))
  else None.

(** Four hexadecimal digits at the head of [s]. *)
Definition hex4 (s : string) : option (N * string) :=
  match s with
  | String a (String b (String c (String d rest))) =>
      match hex_val a, hex_val b, hex_val c, hex_val d with
      | Some x, Some y, Some z, Some w =>
          Some (((x * 16 + y) * 16 + z) * 16 + w, rest)%N
      | _, _, _, _ => None
      end
  | _ => None
  end.

Definition byte (n : N) : string := String (ascii_of_N n) EmptyString.

(** The UTF-8 bytes of a code point (a lone surrogate is written with
    three bytes, as any other code point of its range). *)
Definition utf8 (cp : N) : string :=
  (if cp <? 128 then byte cp
   else if cp <? 2048 then
     byte (192 + cp / 64) ++ byte (128 + cp mod 64)
   else if cp <? 65536 then
     byte (224 + cp / 4096) ++ byte (128 + (cp / 64) mod 64)
       ++ byte (128 + cp mod 64)
   else
     byte (240 + cp / 262144) ++ byte (128 + (cp / 4096) mod 64)
       ++ byte (128 + (cp / 64) mod 64) ++ byte (128 + cp mod 64))%N.

(** The character a one-letter escape stands for. *)
Definition backslash (c : ascii) : option ascii :=
  let n := code c in
  if Nat.eqb n 34 then Some c
  else if Nat.eqb n 92 then Some c
  else if Nat.eqb n 47 then Some c
  else if Nat.eqb n 98 then Some (ascii_of_nat 8)
  else if Nat.eqb n 102 then Some (ascii_of_nat 12)
  else if Nat.eqb n 110 then Some (ascii_of_nat 10)
  else if Nat.eqb n 114 then Some (ascii_of_nat 13)
  else if Nat.eqb n 116 then Some (ascii_of_nat 9)
  else None.

(** [len(s)]: the code points of [s], one per byte that does not
    continue a sequence. *)
Fixpoint code_points (s : string) : nat :=
  match s with
  | EmptyString => 0
  | String c rest =>
      if is_continuation c then code_points rest else S (code_points rest)
  end.

(** A [\uXXXX] escape, positioned after the [u]: one code point, or
    two escapes joined when they form a surrogate pair.  The scanner
    wants a character after the four digits ([end >= len] is an invalid
    escape), and looks for the second half of a pair only when seven
    characters follow the first ([end + 6 < len]). *)
Definition unicode_escape (depth : nat) (s : string) : res (N * string) :=
  match hex4 s with
  | None => raise_errmsg depth InvalidUnicodeEscape
  | Some (_, EmptyString) => raise_errmsg depth InvalidUnicodeEscape
  | Some (hi, rest) =>
      if (((55296 <=? hi) && (hi <=? 56319))%N && (7 <=? code_points rest)%nat)%bool then
        match strip_prefix "\u" rest with
        | Some rest' =>
            match hex4 rest' with
            | Some (lo, rest'') =>
                if ((56320 <=? lo) && (lo <=? 57343))%N
                then Ok (65536 + (hi - 55296) * 1024 + (lo - 56320), rest'')%N
                else Ok (hi, rest)
            | None => raise_errmsg depth InvalidUnicodeEscape
            end
        | None => Ok (hi, rest)
        end
      else Ok (hi, rest)
  end.

(** The scanners below recurse on [fuel], which the model needs and
    the decoder does not have; they yield [None] when it is used up,
    which the fuel that [loads] gives never lets happen
    ([JsonFuel.loads_fuel]). *)

(** [scanstring]: the content of a string literal, positioned after
    its opening quote, and what follows its closing quote. *)
Fixpoint scanstring (fuel depth : nat) (s : string) : option (res (string * string)) :=
  match fuel with
  | O => None
  | S fuel' =>
      match s with
      | EmptyString => Some (raise_errmsg depth UnterminatedString)
      | String c rest =>
          if Nat.eqb (code c) 34 then Some (Ok (EmptyString, rest))
          else if Nat.eqb (code c) 92 then
            match rest with
            | EmptyString => Some (raise_errmsg depth UnterminatedString)
            | String e rest' =>
                if Nat.eqb (code e) 117 then
                  match unicode_escape depth rest' with
                  | Raise x => Some (Raise x)
                  | Ok (cp, rest'') =>
                      match scanstring fuel' depth rest'' with
                      | Some (Ok (body, after)) => Some (Ok (utf8 cp ++ body, after))
                      | other => other
                      end
                  end
                else
                  match backslash e with
                  | None => Some (raise_errmsg depth InvalidEscape)
                  | Some ch =>
                      match scanstring fuel' depth rest' with
                      | Some (Ok (body, after)) => Some (Ok (String ch body, after))
                      | other => other
                      end
                  end
            end
          else if (code c <? 32)%nat then
            Some (raise_errmsg depth InvalidControlCharacter)
          else
            match scanstring fuel' depth rest with
            | Some (Ok (body, after)) => Some (Ok (String c body, after))
            | other => other
            end
      end
  end.

(** *** Values, objects and arrays *)

(** Where no value starts the scanner raises [StopIteration], which
    [raw_decode] turns into 'Expecting value'. *)
Definition stop_iteration {A} : res A := Raise StopIteration.

(** [NaN], [Infinity] and [-Infinity] are handed to [parse_constant],
    a call that takes one level of recursion. *)
Definition parse_constant (depth : nat) (v : value) (rest : string)
  : res (value * string) :=
  match depth with
  | O => Raise RecursionError
  | S _ => Ok (v, rest)
  end.

(** What the scanner does when the first character opens neither a
    string, an object nor an array: a named constant, else a number. *)
Definition scan_atom (l : limits) (depth : nat) (s : string) : res (value * string) :=
  let named (lit : string) (found : string -> res (value * string))
      (otherwise : res (value * string)) :=
    match strip_prefix lit s with
    | Some rest => found rest
    | None => otherwise
    end in
  let number :=
    match match_number l s with
    | Some found => found
    | None => stop_iteration
    end in
  named "null" (fun rest => Ok (VNone, rest))
    (named "true" (fun rest => Ok (VBool true, rest))
       (named "false" (fun rest => Ok (VBool false, rest))
          (named "NaN" (parse_constant depth (VFloat FNaN))
             (named "Infinity" (parse_constant depth (VFloat (FInf false)))
                (named "-Infinity" (parse_constant depth (VFloat (FInf true)))
                   number))))).

(** A string literal as a value. *)
Definition scan_string (depth : nat) (s : string) : option (res (value * string)) :=
  match scanstring (String.length s + 1) depth s with
  | Some (Ok (body, after)) => Some (Ok (VStr body, after))
  | Some (Raise x) => Some (Raise x)
  | None => None
  end.

(** [scan_once] reads one value at the head of [s], with [depth]
    levels of recursion left: entering an object or an array takes one,
    and raises [RecursionError] when none is left.  [object_members]
    starts where a key is expected, with the pairs read so far in
    [acc]; [array_items] starts where an item is expected. *)
Fixpoint scan_once (l : limits) (fuel depth : nat) (s : string) {struct fuel}
  : option (res (value * string)) :=
  match fuel with
  | O => None
  | S fuel' =>
      match s with
      | EmptyString => Some stop_iteration
      | String c rest =>
          if Nat.eqb (code c) 34 then scan_string depth rest
          else if Nat.eqb (code c) 123 then
            match depth with
            | O => Some (Raise RecursionError)
            | S depth' =>
                match skip_ws rest with
                | String c' after as inner =>
                    if Nat.eqb (code c') 125 then Some (Ok (VDict [], after))
                    else object_members l fuel' depth' inner []
                | EmptyString => object_members l fuel' depth' EmptyString []
                end
            end
          else if Nat.eqb (code c) 91 then
            match depth with
            | O => Some (Raise RecursionError)
            | S depth' =>
                match skip_ws rest with
                | String c' after as inner =>
                    if Nat.eqb (code c') 93 then Some (Ok (VList [], after))
                    else array_items l fuel' depth' inner []
                | EmptyString => array_items l fuel' depth' EmptyString []
                end
            end
          else Some (scan_atom l depth s)
      end
  end

with object_members (l : limits) (fuel depth : nat) (s : string)
    (acc : list (string * value)) {struct fuel} : option (res (value * string)) :=
  match fuel with
  | O => None
  | S fuel' =>
      match s with
      | String q rest =>
          if Nat.eqb (code q) 34 then
            match scanstring (String.length rest + 1) depth rest with
            | None => None
            | Some (Raise x) => Some (Raise x)
            | Some (Ok (key, after_key)) =>
                match skip_ws after_key with
                | String colon after_colon =>
                    if Nat.eqb (code colon) 58 then
                      match scan_once l fuel' depth (skip_ws after_colon) with
                      | Some (Ok (v, after_value)) =>
                          let acc' := (acc ++ [(key, v)])%list in
                          match skip_ws after_value with
                          | String d after_d =>
                              if Nat.eqb (code d) 125 then
                                Some (Ok (VDict (dict_of_pairs acc'), after_d))
                              else if Nat.eqb (code d) 44 then
                                object_members l fuel' depth (skip_ws after_d) acc'
                              else Some (raise_errmsg depth ExpectingComma)
                          | EmptyString => Some (raise_errmsg depth ExpectingComma)
                          end
                      | other => other
                      end
                    else Some (raise_errmsg depth ExpectingColon)
                | EmptyString => Some (raise_errmsg depth ExpectingColon)
                end
            end
          else Some (raise_errmsg depth ExpectingPropertyName)
      | EmptyString => Some (raise_errmsg depth ExpectingPropertyName)
      end
  end

with array_items (l : limits) (fuel depth : nat) (s : string) (acc : list value)
    {struct fuel} : option (res (value * string)) :=
  match fuel with
  | O => None
  | S fuel' =>
      match scan_once l fuel' depth s with
      | Some (Ok (v, after_value)) =>
          let acc' := (acc ++ [v])%list in
          match skip_ws after_value with
          | String d after_d =>
              if Nat.eqb (code d) 93 then Some (Ok (VList acc', after_d))
              else if Nat.eqb (code d) 44 then
                array_items l fuel' depth (skip_ws after_d) acc'
              else Some (raise_errmsg depth ExpectingComma)
          | EmptyString => Some (raise_errmsg depth ExpectingComma)
          end
      | other => other
      end
  end.

(** The UTF-8 bytes of U+FEFF. *)
Definition bom : string :=
  String (ascii_of_nat 239) (String (ascii_of_nat 187)
    (String (ascii_of_nat 191) EmptyString)).

(** [json.loads(s)] for a [str]: one value between optional
    whitespace, and nothing after it.  [loads] refuses a byte order
    mark, [decode] refuses what follows the value ('Extra data'), and
    [raw_decode], which calls the scanner, turns its [StopIteration]
    into 'Expecting value'.  These are raised by Python code that has
    more levels of recursion left than the scanner had, and so the
    three that raising takes. *)
Definition loads (l : limits) (s : string) : res value :=
  match strip_prefix bom s with
  | Some _ => Raise (JSONDecodeError UnexpectedBOM)
  | None =>
      match scan_once l (2 * String.length s + 2) (max_depth l) (skip_ws s) with
      | Some (Ok (v, rest)) =>
          match skip_ws rest with
          | EmptyString => Ok v
          | String _ _ => Raise (JSONDecodeError ExtraData)
          end
      | Some (Raise StopIteration) => Raise (JSONDecodeError ExpectingValue)
      | Some (Raise x) => Raise x
      | None => Raise RecursionError
      end
  end.

(** [json.loads(v)] for an object met at run time: anything but a
    [str] is refused with a [TypeError]. *)
Definition loads_value (l : limits) (v : value) : res value :=
  match v with
  | VStr s => loads l s
  | _ => Raise TypeError
  end.

End Json.


(** ** Observable effects and the script monad *)

Module Script.
Import Py.

(** [MockContext] of the smoke test: a dataclass with one field,
    [request_id: int = 1]. *)
Record MockContext := { request_id : Z }.

(** [MockContext()]. *)
Definition MockContext_new : MockContext := {| request_id := 1 |}.

(** How a remote request reaches the server: a method of the MCP
    [Client] object, or a function of [sketchup_mcp.server] called with
    a context. *)
Inductive entry :=
| ClientMethod (name : string)
| ServerFunction (name : string) (ctx : MockContext).

Definition entry_name (e : entry) : string :=
  match e with
  | ClientMethod n => n
  | ServerFunction n _ => n
  end.

Inductive level := INFO | ERROR.

(** The pieces of an f-string. *)
Inductive piece :=
| Txt (s : string)                  (* literal text *)
| Fmt (v : value)                   (* [{v}] *)
| FmtExn (e : exn)                  (* [{e}] for a caught exception *)
| Dumps (indent : nat) (v : value). (* [{json.dumps(v, indent=n)}] *)

Definition message := list piece.

(** Everything a script does that can be seen from outside. *)
Inductive event :=
| Connect (server_name : string)
| Request (via : entry) (payload : string)
| Log (lvl : level) (msg : message)
| Print (msg : message).

(** The environment of a run: whether the client got its connection,
    what the server answers to the [n]-th request (counted from 0)
    carrying a given payload, and the limits of the interpreter that
    runs the script. *)
Record world := {
  is_connected : bool;
  respond : nat -> string -> string;
  limits : Json.limits
}.

(** The events so far, oldest first, and the number of requests sent. *)
Record state := {
  trace : list event;
  sent : nat
}.

Definition start : state := {| trace := []; sent := 0 |}.

(** A statement: reads the world, extends the state, and either
    yields a value or raises. *)
Definition M (A : Type) : Type := world -> state -> res A * state.

Definition ret {A} (a : A) : M A := fun _ st => (Ok a, st).

Definition bind {A B} (m : M A) (k : A -> M B) : M B :=
  fun w st =>
    match m w st with
    | (Ok a, st') => k a w st'
    | (Raise e, st') => (Raise e, st')
    end.

Notation "x <- m ;; k" := (bind m (fun x => k))
  (at level 61, m at next level, right associativity).
Notation "m ;; k" := (bind m (fun _ => k))
  (at level 61, right associativity).

(** The value of an expression, or the exception it raises. *)
Definition eval {A} (r : res A) : M A := fun _ st => (r, st).

(** [json.loads(s)] for a [str], in the interpreter of the run. *)
Definition json_loads (s : string) : M value :=
  fun w st => (Json.loads (limits w) s, st).

(** [json.loads(v)] for an object met at run time. *)
Definition json_loads_value (v : value) : M value :=
  fun w st => (Json.loads_value (limits w) v, st).

Definition emit (e : event) : M unit :=
  fun _ st => (Ok tt, {| trace := (trace st ++ [e])%list; sent := sent st |}).

(** [try: body except <handles>: handler]. *)
Definition try_except {A} (body : M A) (handles : exn -> bool)
    (handler : exn -> M A) : M A :=
  fun w st =>
    match body w st with
    | (Ok a, st') => (Ok a, st')
    | (Raise e, st') =>
        if handles e then handler e w st' else (Raise e, st')
    end.

(** [for x in xs: acc = body(x, acc)]. *)
Fixpoint for_each {A S} (xs : list A) (acc : S) (body : A -> S -> M S) : M S :=
  match xs with
  | [] => ret acc
  | x :: rest => acc' <- body x acc ;; for_each rest acc' body
  end.

(** A remote request: recorded, counted, answered by the world. *)
Definition request (via : entry) (payload : string) : M string :=
  fun w st =>
    (Ok (respond w (sent st) payload),
     {| trace := (trace st ++ [Request via payload])%list; sent := S (sent st) |}).

(** [Client(name)]. *)
Definition Client (server_name : string) : M unit := emit (Connect server_name).

(** [client.is_connected]. *)
Definition client_is_connected : M bool := fun w st => (Ok (is_connected w), st).

(** [client.eval_ruby(code=...)]. *)
Definition client_eval_ruby (code : string) : M string :=
  request (ClientMethod "eval_ruby") code.

(** [sketchup_mcp.server.eval_ruby(ctx, code)]. *)
Definition server_eval_ruby (ctx : MockContext) (code : string) : M string :=
  request (ServerFunction "eval_ruby" ctx) code.

Definition logger_info (msg : message) : M unit := emit (Log INFO msg).
Definition logger_error (msg : message) : M unit := emit (Log ERROR msg).
Definition print (msg : message) : M unit := emit (Print msg).

(** An entry of [EXAMPLES] or [TEST_CASES]: a dict with the keys
    ["name"] and ["code"]. *)
Record snippet := { name : string; code : string }.

(** Running a program from the start. *)
Definition run (prog : M unit) (w : world) : res unit * state := prog w start.

Definition outcome (prog : M unit) (w : world) : res unit := fst (run prog w).
Definition events (prog : M unit) (w : world) : list event := trace (snd (run prog w)).

(** The requests of a trace, in order. *)
Definition requests (t : list event) : list (entry * string) :=
  flat_map (fun e => match e with Request via p => [(via, p)] | _ => [] end) t.

(** The payloads of a trace, in order. *)
Definition payloads (t : list event) : list string := map snd (requests t).

(** The log records of a trace, in order. *)
Definition logs (t : list event) : list (level * message) :=
  flat_map (fun e => match e with Log l m => [(l, m)] | _ => [] end) t.

(** The printed lines of a trace, in order. *)
Definition printed (t : list event) : list message :=
  flat_map (fun e => match e with Print m => [m] | _ => [] end) t.

(** ** examples/simple_test.py *)

Module simple_test.

Definition CUBE_CODE : string :=
  "
model = Sketchup.active_model
entities = model.active_entities

# Start an operation for undo
model.start_operation(" ++ dq ++ "Create Test Cube" ++ dq ++ ", true)

# Create a group for the cube
group = entities.add_group

# Create the bottom face
face = group.entities.add_face(
  [0, 0, 0],
  [10, 0, 0],
  [10, 10, 0],
  [0, 10, 0]
)

# Push/pull to create the cube
face.pushpull(10)

# End the operation
model.commit_operation

# Return the group ID
group.entityID.to_s
".

Definition main : M unit :=
  Client "sketchup" ;;
  connected <- client_is_connected ;;
  if negb connected then
    logger_error [Txt "Failed to connect to the SketchUp MCP server."]
  else
    logger_info [Txt "Connected to SketchUp MCP server."] ;;
    logger_info [Txt "Creating a simple cube..."] ;;
    response <- client_eval_ruby CUBE_CODE ;;
    try_except
      (result <- json_loads response ;;
       success <- eval (get result "success") ;;
       if truthy success then
         r <- eval (get result "result") ;;
         logger_info [Txt "Cube created successfully! Group ID: "; Fmt r]
       else
         e <- eval (get result "error") ;;
         logger_error [Txt "Failed to create cube: "; Fmt e])
      is_JSONDecodeError
      (fun _ => logger_error [Txt "Failed to parse response: "; Fmt (VStr response)]) ;;
    logger_info [Txt "Test completed."].

End simple_test.

(** ** examples/simple_ruby_eval.py *)

Module simple_ruby_eval.

Definition EXAMPLES : list snippet :=
  [
    {| name := "Create a line";
       code := "
            model = Sketchup.active_model
            entities = model.active_entities
            line = entities.add_line([0,0,0], [100,100,100])
            line.entityID
        " |};
    {| name := "Create a cube";
       code := "
            model = Sketchup.active_model
            entities = model.active_entities
            group = entities.add_group
            face = group.entities.add_face(
                [0, 0, 0],
                [10, 0, 0],
                [10, 10, 0],
                [0, 10, 0]
            )
            face.pushpull(10)
            group.entityID
        " |};
    {| name := "Get model information";
       code := "
            model = Sketchup.active_model
            info = {
                " ++ dq ++ "filename" ++ dq ++ ": model.path,
                " ++ dq ++ "title" ++ dq ++ ": model.title,
                " ++ dq ++ "description" ++ dq ++ ": model.description,
                " ++ dq ++ "entity_count" ++ dq ++ ": model.entities.size,
                " ++ dq ++ "selection_count" ++ dq ++ ": model.selection.size
            }
            info.to_json
        " |}
  ].

(** The body of the loop over [EXAMPLES]. *)
Definition run_example (example : snippet) : M unit :=
  logger_info [Txt "Running example: "; Fmt (VStr (name example))] ;;
  response <- client_eval_ruby (code example) ;;
  try_except
    (result <- json_loads response ;;
     success <- eval (get result "success") ;;
     if truthy success then
       r <- eval (get result "result") ;;
       logger_info [Txt "Result: "; Fmt r]
     else
       e <- eval (get result "error") ;;
       logger_error [Txt "Error: "; Fmt e])
    is_JSONDecodeError
    (fun _ => logger_error [Txt "Failed to parse response: "; Fmt (VStr response)]) ;;
  logger_info [Txt (str_mul "-" 40)].

Definition main : M unit :=
  Client "sketchup" ;;
  connected <- client_is_connected ;;
  if negb connected then
    logger_error [Txt "Failed to connect to the SketchUp MCP server."]
  else
    logger_info [Txt "Connected to SketchUp MCP server."] ;;
    for_each EXAMPLES tt (fun example _ => run_example example) ;;
    logger_info [Txt "All examples completed."].

End simple_ruby_eval.

(** ** examples/ruby_tester.py *)

Module ruby_tester.

Definition TEST_CASES : list snippet :=
  [
    {| name := "Basic Model Access";
       code := "
            model = Sketchup.active_model
            entities = model.active_entities
            " ++ dq ++ "Success: Basic model access works" ++ dq ++ "
        " |};
    {| name := "Create Group";
       code := "
            model = Sketchup.active_model
            entities = model.active_entities
            group = entities.add_group
            group.entityID.to_s
        " |};
    {| name := "Create Face and Pushpull";
       code := "
            model = Sketchup.active_model
            entities = model.active_entities
            group = entities.add_group
            face = group.entities.add_face(
                [0, 0, 0],
                [10, 0, 0],
                [10, 10, 0],
                [0, 10, 0]
            )
            face.pushpull(10)
            " ++ dq ++ "Success: Created face and pushpull" ++ dq ++ "
        " |};
    {| name := "Component Definition";
       code := "
            model = Sketchup.active_model
            definition = model.definitions.add(" ++ dq ++ "Test Component" ++ dq ++ ")
            definition.name
        " |};
    {| name := "Component Behavior";
       code := "
            model = Sketchup.active_model
            definition = model.definitions.add(" ++ dq ++ "Test Component" ++ dq ++ ")
            # Get behavior properties
            behavior = definition.behavior
            
            # Test available methods
            methods = behavior.methods - Object.methods
            
            # Return the available methods
            methods.sort.join(" ++ dq ++ ", " ++ dq ++ ")
        " |};
    {| name := "Component Instance";
       code := "
            model = Sketchup.active_model
            entities = model.active_entities
            definition = model.definitions.add(" ++ dq ++ "Test Component" ++ dq ++ ")
            
            # Create a point and transformation
            point = Geom::Point3d.new(0, 0, 0)
            transform = Geom::Transformation.new(point)
            
            # Add instance
            instance = entities.add_instance(definition, transform)
            
            # Set behavior properties
            behavior = instance.definition.behavior
            behavior.snapto = 0
            
            " ++ dq ++ "Success: Component instance created with behavior set" ++ dq ++ "
        " |}
  ].

Definition test_ruby_code (test_case : snippet) : M bool :=
  logger_info [Txt "Testing: "; Fmt (VStr (name test_case))] ;;
  response <- client_eval_ruby (code test_case) ;;
  try_except
    (result <- json_loads response ;;
     success <- eval (get result "success") ;;
     if truthy success then
       r <- eval (get result "result") ;;
       logger_info [Txt "✅ SUCCESS: "; Fmt r] ;;
       ret true
     else
       e <- eval (get result "error") ;;
       logger_error [Txt "❌ ERROR: "; Fmt e] ;;
       ret false)
    is_JSONDecodeError
    (fun _ =>
       logger_error [Txt "Failed to parse response: "; Fmt (VStr response)] ;;
       ret false).

(** The body of the loop over [TEST_CASES], with [success_count] as
    the loop's variable. *)
Definition run_test (test_case : snippet) (success_count : nat) : M nat :=
  passed <- test_ruby_code test_case ;;
  let success_count := if passed then success_count + 1 else success_count in
  logger_info [Txt (str_mul "-" 50)] ;;
  ret success_count.

Definition main : M unit :=
  Client "sketchup" ;;
  connected <- client_is_connected ;;
  if negb connected then
    logger_error [Txt "Failed to connect to the SketchUp MCP server."]
  else
    logger_info [Txt "Connected to SketchUp MCP server."] ;;
    logger_info [Txt (str_mul "=" 50)] ;;
    success_count <- for_each TEST_CASES 0 run_test ;;
    logger_info [Txt "Testing complete: "; Fmt (VInt (Z.of_nat success_count));
                 Txt "/"; Fmt (VInt (Z.of_nat (List.length TEST_CASES)));
                 Txt " tests passed"].

End ruby_tester.

(** ** examples/behavior_tester.py *)

Module behavior_tester.

Definition BEHAVIOR_TEST_CODE : string :=
  "
# Create a new model context
model = Sketchup.active_model
model.start_operation(" ++ dq ++ "Test Component Behavior" ++ dq ++ ", true)

# Create a new component definition
definition = model.definitions.add(" ++ dq ++ "Test Component" ++ dq ++ ")

# Get the behavior object
behavior = definition.behavior

# Get all methods available on the behavior object
all_methods = behavior.methods - Object.methods

# Test setting various behavior properties
results = {}

# Test common behavior properties
properties_to_test = [
  " ++ dq ++ "snapto" ++ dq ++ ",
  " ++ dq ++ "cuts_opening" ++ dq ++ ",
  " ++ dq ++ "always_face_camera" ++ dq ++ ",
  " ++ dq ++ "no_scale_tool" ++ dq ++ ",
  " ++ dq ++ "shadows_face_sun" ++ dq ++ ",
  " ++ dq ++ "is_component" ++ dq ++ ",
  " ++ dq ++ "component?" ++ dq ++ "
]

# Test each property
property_results = {}
for prop in properties_to_test
  begin
    # Try to get the property
    if behavior.respond_to?(prop)
      property_results[prop] = {
        " ++ dq ++ "exists" ++ dq ++ ": true,
        " ++ dq ++ "readable" ++ dq ++ ": true
      }
      
      # Try to set the property (for boolean properties, try setting to true)
      setter_method = prop + " ++ dq ++ "=" ++ dq ++ "
      if behavior.respond_to?(setter_method)
        if prop == " ++ dq ++ "snapto" ++ dq ++ "
          behavior.send(setter_method, 0)
        else
          behavior.send(setter_method, true)
        end
        property_results[prop][" ++ dq ++ "writable" ++ dq ++ "] = true
      else
        property_results[prop][" ++ dq ++ "writable" ++ dq ++ "] = false
      end
    else
      property_results[prop] = {
        " ++ dq ++ "exists" ++ dq ++ ": false
      }
    end
  rescue => e
    property_results[prop] = {
      " ++ dq ++ "exists" ++ dq ++ ": true,
      " ++ dq ++ "error" ++ dq ++ ": e.message
    }
  end
end

# End the operation
model.commit_operation

# Return the results
{
  " ++ dq ++ "all_methods" ++ dq ++ ": all_methods.sort,
  " ++ dq ++ "property_results" ++ dq ++ ": property_results
}.to_json
".

(** The body of the loop over [behavior_data["property_results"].items()]. *)
Definition report_property (prop : string) (prop_result : value) : M unit :=
  present <- eval (get prop_result "exists") ;;
  if truthy present then
    readable <- eval (get_default prop_result "readable" (VBool false)) ;;
    writable <- eval (get_default prop_result "writable" (VBool false)) ;;
    error <- eval (get prop_result "error") ;;
    let status := [] in
    let status := if truthy readable then (status ++ ["readable"])%list else status in
    let status := if truthy writable then (status ++ ["writable"])%list else status in
    if truthy error then
      logger_info [Txt "  - "; Fmt (VStr prop); Txt ": EXISTS but ERROR: "; Fmt error]
    else
      logger_info [Txt "  - "; Fmt (VStr prop); Txt ": EXISTS (";
                   Fmt (VStr (str_join ", " status)); Txt ")"]
  else
    logger_info [Txt "  - "; Fmt (VStr prop); Txt ": DOES NOT EXIST"].

Definition main : M unit :=
  Client "sketchup" ;;
  connected <- client_is_connected ;;
  if negb connected then
    logger_error [Txt "Failed to connect to the SketchUp MCP server."]
  else
    logger_info [Txt "Connected to SketchUp MCP server."] ;;
    logger_info [Txt "Testing component behavior methods..."] ;;
    response <- client_eval_ruby BEHAVIOR_TEST_CODE ;;
    try_except
      (result <- json_loads response ;;
       success <- eval (get result "success") ;;
       if truthy success then
         inner <- eval (get result "result") ;;
         behavior_data <- json_loads_value inner ;;
         logger_info [Txt "Available methods on Behavior object:"] ;;
         all_methods <- eval (subscript behavior_data "all_methods") ;;
         methods <- eval (iterate all_methods) ;;
         for_each methods tt
           (fun method _ => logger_info [Txt "  - "; Fmt method]) ;;
         logger_info [Txt "
Property test results:"] ;;
         property_results <- eval (subscript behavior_data "property_results") ;;
         pairs <- eval (items property_results) ;;
         for_each pairs tt
           (fun pair _ => report_property (fst pair) (snd pair))
       else
         e <- eval (get result "error") ;;
         logger_error [Txt "Error: "; Fmt e])
      is_JSONDecodeError
      (fun e => logger_error [Txt "Failed to parse response: "; FmtExn e]) ;;
    logger_info [Txt "Testing completed."].

End behavior_tester.

(** ** examples/arts_and_crafts_cabinet.py *)

Module arts_and_crafts_cabinet.

Definition CABINET_RUBY_CODE : string :=
  "
# Arts and Crafts Cabinet with Working Doors
# This script creates a stylish arts and crafts style cabinet with working doors
# that can be opened and closed using SketchUp's component functionality

def create_arts_and_crafts_cabinet
  # Get the active model and start an operation for undo purposes
  model = Sketchup.active_model
  model.start_operation(" ++ dq ++ "Create Arts and Crafts Cabinet" ++ dq ++ ", true)
  
  # Define cabinet dimensions (in inches)
  width = 36
  depth = 18
  height = 72
  thickness = 0.75
  
  # Create a new component definition for the cabinet
  cabinet_def = model.definitions.add(" ++ dq ++ "Arts and Crafts Cabinet" ++ dq ++ ")
  entities = cabinet_def.entities
  
  # Create the main cabinet box
  create_cabinet_box(entities, width, depth, height, thickness)
  
  # Add shelves
  shelf_positions = [height/3, 2*height/3]
  create_shelves(entities, width, depth, thickness, shelf_positions)
  
  # Create doors (as nested components that can swing open)
  create_doors(entities, width, depth, height, thickness)
  
  # Add decorative elements typical of arts and crafts style
  add_decorative_elements(entities, width, depth, height, thickness)
  
  # Place the component in the model
  point = Geom::Point3d.new(0, 0, 0)
  transform = Geom::Transformation.new(point)
  instance = model.active_entities.add_instance(cabinet_def, transform)
  
  # End the operation
  model.commit_operation
  
  # Return the component instance ID
  return instance.entityID
end

def create_cabinet_box(entities, width, depth, height, thickness)
  # Bottom
  bottom_points = [
    [0, 0, 0], 
    [width, 0, 0], 
    [width, depth, 0], 
    [0, depth, 0]
  ]
  bottom_face = entities.add_face(bottom_points)
  bottom_face.pushpull(-thickness)
  
  # Back
  back_points = [
    [0, depth, 0], 
    [width, depth, 0], 
    [width, depth, height], 
    [0, depth, height]
  ]
  back_face = entities.add_face(back_points)
  back_face.pushpull(-thickness)
  
  # Left side
  left_points = [
    [0, 0, 0], 
    [0, depth, 0], 
    [0, depth, height], 
    [0, 0, height]
  ]
  left_face = entities.add_face(left_points)
  left_face.pushpull(-thickness)
  
  # Right side
  right_points = [
    [width, 0, 0], 
    [width, depth, 0], 
    [width, depth, height], 
    [width, 0, height]
  ]
  right_face = entities.add_face(right_points)
  right_face.pushpull(thickness)
  
  # Top
  top_points = [
    [0, 0, height], 
    [width, 0, height], 
    [width, depth, height], 
    [0, depth, height]
  ]
  top_face = entities.add_face(top_points)
  top_face.pushpull(thickness)
end

def create_shelves(entities, width, depth, thickness, positions)
  positions.each do |z_pos|
    shelf_points = [
      [thickness, thickness, z_pos], 
      [width - thickness, thickness, z_pos], 
      [width - thickness, depth - thickness, z_pos], 
      [thickness, depth - thickness, z_pos]
    ]
    shelf_face = entities.add_face(shelf_points)
    shelf_face.pushpull(-thickness)
  end
end

def create_doors(entities, width, depth, height, thickness)
  # Define door dimensions
  door_width = (width - thickness) / 2
  door_height = height - 2 * thickness
  
  # Create left door as a component (so it can be animated)
  left_door_def = Sketchup.active_model.definitions.add(" ++ dq ++ "Left Cabinet Door" ++ dq ++ ")
  
  # Create the door geometry in the component
  door_entities = left_door_def.entities
  left_door_points = [
    [0, 0, 0], 
    [door_width, 0, 0], 
    [door_width, thickness, 0], 
    [0, thickness, 0]
  ]
  left_door_face = door_entities.add_face(left_door_points)
  left_door_face.pushpull(door_height)
  
  # Add door details
  add_door_details(door_entities, door_width, thickness, door_height)
  
  # Place the left door component
  left_hinge_point = Geom::Point3d.new(thickness, thickness, thickness)
  left_transform = Geom::Transformation.new(left_hinge_point)
  left_door_instance = entities.add_instance(left_door_def, left_transform)
  
  # Set the hinge axis for animation - using correct method for SketchUp 2025
  # The component behavior is already set by default
  left_door_instance.definition.behavior.snapto = 0 # No automatic snapping
  
  # Create right door (similar process)
  right_door_def = Sketchup.active_model.definitions.add(" ++ dq ++ "Right Cabinet Door" ++ dq ++ ")
  
  door_entities = right_door_def.entities
  right_door_points = [
    [0, 0, 0], 
    [door_width, 0, 0], 
    [door_width, thickness, 0], 
    [0, thickness, 0]
  ]
  right_door_face = door_entities.add_face(right_door_points)
  right_door_face.pushpull(door_height)
  
  # Add door details
  add_door_details(door_entities, door_width, thickness, door_height)
  
  # Place the right door component
  right_hinge_point = Geom::Point3d.new(width - thickness, thickness, thickness)
  right_transform = Geom::Transformation.new(right_hinge_point)
  right_door_instance = entities.add_instance(right_door_def, right_transform)
  
  # Set the hinge axis for animation (flipped compared to left door)
  # The component behavior is already set by default
  right_door_instance.definition.behavior.snapto = 0
end

def add_door_details(entities, width, thickness, height)
  # Add a decorative panel that's inset
  inset = thickness / 2
  panel_points = [
    [inset, -thickness/2, inset], 
    [width - inset, -thickness/2, inset], 
    [width - inset, -thickness/2, height - inset], 
    [inset, -thickness/2, height - inset]
  ]
  panel = entities.add_face(panel_points)
  panel.pushpull(-thickness/4)
  
  # Add a small handle
  handle_position = [width - 2 * inset, -thickness * 1.5, height / 2]
  handle_size = height / 20
  
  # Create a cylinder for the handle
  handle_circle = entities.add_circle(handle_position, [0, 1, 0], handle_size, 12)
  handle_face = entities.add_face(handle_circle)
  handle_face.pushpull(-thickness)
end

def add_decorative_elements(entities, width, depth, height, thickness)
  # Add characteristic arts and crafts style base
  base_height = 4
  
  # Create a slightly wider base
  base_extension = 1
  base_points = [
    [-base_extension, -base_extension, 0], 
    [width + base_extension, -base_extension, 0], 
    [width + base_extension, depth + base_extension, 0], 
    [-base_extension, depth + base_extension, 0]
  ]
  base_face = entities.add_face(base_points)
  base_face.pushpull(-base_height)
  
  # Add corbels in the arts and crafts style
  add_corbels(entities, width, depth, height, thickness)
  
  # Add crown detail at the top
  add_crown(entities, width, depth, height, thickness)
end

def add_corbels(entities, width, depth, height, thickness)
  # Add decorative corbels under the top
  corbel_height = 3
  corbel_depth = 2
  
  # Left front corbel
  left_corbel_points = [
    [thickness * 2, thickness, height - thickness - corbel_height],
    [thickness * 2 + corbel_depth, thickness, height - thickness - corbel_height],
    [thickness * 2 + corbel_depth, thickness, height - thickness],
    [thickness * 2, thickness, height - thickness]
  ]
  left_corbel = entities.add_face(left_corbel_points)
  left_corbel.pushpull(-thickness)
  
  # Right front corbel
  right_corbel_points = [
    [width - thickness * 2 - corbel_depth, thickness, height - thickness - corbel_height],
    [width - thickness * 2, thickness, height - thickness - corbel_height],
    [width - thickness * 2, thickness, height - thickness],
    [width - thickness * 2 - corbel_depth, thickness, height - thickness]
  ]
  right_corbel = entities.add_face(right_corbel_points)
  right_corbel.pushpull(-thickness)
end

def add_crown(entities, width, depth, height, thickness)
  # Add a simple crown molding at the top
  crown_height = 2
  crown_extension = 1.5
  
  crown_points = [
    [-crown_extension, -crown_extension, height + thickness],
    [width + crown_extension, -crown_extension, height + thickness],
    [width + crown_extension, depth + crown_extension, height + thickness],
    [-crown_extension, depth + crown_extension, height + thickness]
  ]
  crown_face = entities.add_face(crown_points)
  crown_face.pushpull(crown_height)
  
  # Add a slight taper to the crown
  taper_points = [
    [-crown_extension/2, -crown_extension/2, height + thickness + crown_height],
    [width + crown_extension/2, -crown_extension/2, height + thickness + crown_height],
    [width + crown_extension/2, depth + crown_extension/2, height + thickness + crown_height],
    [-crown_extension/2, depth + crown_extension/2, height + thickness + crown_height]
  ]
  taper_face = entities.add_face(taper_points)
  taper_face.pushpull(crown_height/2)
end

# Execute the function to create the cabinet
create_arts_and_crafts_cabinet
".

Definition main : M unit :=
  Client "sketchup" ;;
  connected <- client_is_connected ;;
  if negb connected then
    logger_error [Txt "Failed to connect to the SketchUp MCP server."]
  else
    logger_info [Txt "Connected to SketchUp MCP server."] ;;
    logger_info [Txt "Creating arts and crafts cabinet..."] ;;
    response <- client_eval_ruby CABINET_RUBY_CODE ;;
    try_except
      (result <- json_loads response ;;
       success <- eval (get result "success") ;;
       if truthy success then
         r <- eval (get result "result") ;;
         logger_info [Txt "Cabinet created successfully! Result: "; Fmt r]
       else
         e <- eval (get result "error") ;;
         logger_error [Txt "Failed to create cabinet: "; Fmt e])
      is_JSONDecodeError
      (fun _ => logger_error [Txt "Failed to parse response: "; Fmt (VStr response)]) ;;
    logger_info [Txt "Example completed."].

End arts_and_crafts_cabinet.

(** ** test_eval_ruby.py *)

Module test_eval_ruby.

Definition test_code : string :=
  "
model = Sketchup.active_model
entities = model.active_entities
line = entities.add_line([0,0,0], [100,100,100])
puts " ++ dq ++ "Created line with ID: #{line.entityID}" ++ dq ++ "
line.entityID
".

(** The statements of the module, which has no function of its own:
    they run when the file is executed. *)
Definition toplevel : M unit :=
  result <- server_eval_ruby MockContext_new test_code ;;
  print [Txt "Result: "; Fmt (VStr result)] ;;
  parsed <- json_loads result ;;
  print [Txt "Parsed: "; Dumps 2 parsed].

End test_eval_ruby.

(** ** The six files *)

Inductive file :=
| SimpleTest
| SimpleRubyEval
| RubyTester
| BehaviorTester
| ArtsAndCraftsCabinet
| TestEvalRuby.

Definition program (f : file) : M unit :=
  match f with
  | SimpleTest => simple_test.main
  | SimpleRubyEval => simple_ruby_eval.main
  | RubyTester => ruby_tester.main
  | BehaviorTester => behavior_tester.main
  | ArtsAndCraftsCabinet => arts_and_crafts_cabinet.main
  | TestEvalRuby => test_eval_ruby.toplevel
  end.

(** The constant texts a file holds for remote evaluation, in the
    order it sends them. *)
Definition canned (f : file) : list string :=
  match f with
  | SimpleTest => [simple_test.CUBE_CODE]
  | SimpleRubyEval => map code simple_ruby_eval.EXAMPLES
  | RubyTester => map code ruby_tester.TEST_CASES
  | BehaviorTester => [behavior_tester.BEHAVIOR_TEST_CODE]
  | ArtsAndCraftsCabinet => [arts_and_crafts_cabinet.CABINET_RUBY_CODE]
  | TestEvalRuby => [test_eval_ruby.test_code]
  end.

(** The five example scripts; the smoke test is the sixth file. *)
Definition is_example (f : file) : bool :=
  match f with TestEvalRuby => false | _ => true end.

End Script.

(** * Vocabulary of the properties *)

Import Py Script.

(** The entries of a decoded object, read as [d.get(k)] reads them. *)
Definition field (d : list (string * value)) (k : string) : value :=
  match lookup k d with Some x => x | None => VNone end.

(** A world whose server gives the same answer to every request, in an
    interpreter with its default limits. *)
Definition always (connected : bool) (answer : string) : world :=
  {| is_connected := connected; respond := fun _ _ => answer;
     limits := Json.default_limits |}.

(** A world whose server answers the [n]-th request with the [n]-th
    string of a list, and [fallback] once the list is used up. *)
Definition scripted (connected : bool) (answers : list string) (fallback : string) : world :=
  {| is_connected := connected;
     respond := fun n _ => nth n answers fallback;
     limits := Json.default_limits |}.

(** The four scripts that talk to the server through the MCP client and
    log the [result] field as it is. *)
Definition logs_result_field (f : file) : bool :=
  match f with
  | SimpleTest | SimpleRubyEval | RubyTester | ArtsAndCraftsCabinet => true
  | BehaviorTester | TestEvalRuby => false
  end.

(** The record a script writes for a decoded object [d]: the [result]
    field at level INFO when [success] is truthy, the [error] field at
    level ERROR otherwise. *)
Definition verdict (on_success on_failure : string) (d : list (string * value)) : event :=
  if truthy (field d "success")
  then Log INFO [Txt on_success; Fmt (field d "result")]
  else Log ERROR [Txt on_failure; Fmt (field d "error")].

(** An answer the four simple scripts cope with: [json.loads] raises
    [JSONDecodeError] on it, or decodes it to an object. *)
Definition answerable (l : Json.limits) (response : string) : bool :=
  match Json.loads l response with
  | Ok (VDict _) => true
  | Raise (JSONDecodeError _) => true
  | _ => false
  end.

(** An answer that decodes to an object whose [success] is truthy. *)
Definition passes (l : Json.limits) (response : string) : bool :=
  match Json.loads l response with
  | Ok (VDict d) => truthy (field d "success")
  | _ => false
  end.

(** The exception an answer makes a simple script end with, if any:
    the [AttributeError] of [.get] when the answer decodes to something
    that is not an object, the decoder's own exception when it raises
    another one than [JSONDecodeError]. *)
Definition escapes (l : Json.limits) (response : string) : option exn :=
  match Json.loads l response with
  | Ok (VDict _) => None
  | Ok _ => Some AttributeError
  | Raise (JSONDecodeError _) => None
  | Raise e => Some e
  end.



(** The answers of the world to a list of payloads sent in order, the
    first of them as request number [n]. *)
Fixpoint answers (w : world) (n : nat) (codes : list string) : list string :=
  match codes with
  | [] => []
  | c :: rest => respond w n c :: answers w (S n) rest
  end.



(** What a list of snippets sends through the client. *)
Definition client_requests (snippets : list snippet) : list (entry * string) :=
  map (fun s => (ClientMethod "eval_ruby", code s)) snippets.

(** No request is added to the trace. *)
Definition same_requests (st st' : state) : Prop :=
  requests (trace st') = requests (trace st).

Definition quiet {A} (m : M A) : Prop :=
  forall w st e, fst (m w st) = Raise e -> is_JSONDecodeError e = false.

(** The events of behavior_tester.py up to and including its request. *)
Definition behavior_tester_before : list event :=
  [Connect "sketchup";
   Log INFO [Txt "Connected to SketchUp MCP server."];
   Log INFO [Txt "Testing component behavior methods..."];
   Request (ClientMethod "eval_ruby") behavior_tester.BEHAVIOR_TEST_CODE].

(** The state of simple_ruby_eval.py when its loop starts. *)
Definition examples_start : state :=
  {| trace := [Connect "sketchup"; Log INFO [Txt "Connected to SketchUp MCP server."]];
     sent := 0 |}.

(** The state of ruby_tester.py when its loop starts. *)
Definition tests_start : state :=
  {| trace := [Connect "sketchup"; Log INFO [Txt "Connected to SketchUp MCP server."];
               Log INFO [Txt (str_mul "=" 50)]];
     sent := 0 |}.

(** The record that closes ruby_tester.py. *)
Definition summary (success_count : nat) : event :=
  Log INFO [Txt "Testing complete: "; Fmt (VInt (Z.of_nat success_count));
            Txt "/"; Fmt (VInt (Z.of_nat (List.length ruby_tester.TEST_CASES)));
            Txt " tests passed"].

(** The entry point a file uses. *)
Definition via_of (f : file) : entry :=
  match f with
  | TestEvalRuby => ServerFunction "eval_ruby" MockContext_new
  | _ => ClientMethod "eval_ruby"
  end.

(** The requests a file makes when nothing stops it. *)
Definition file_requests (f : file) : list (entry * string) :=
  map (fun c => (via_of f, c)) (canned f).

(** The two scripts that walk a list of snippets. *)
Definition walks_list (f : file) : bool :=
  match f with SimpleRubyEval | RubyTester => true | _ => false end.

Definition quoted (s : string) : string := dq ++ s ++ dq.

(** [{"success": true, "result": 42}] *)
Definition answer_ok : string :=
  "{" ++ quoted "success" ++ ": true, " ++ quoted "result" ++ ": 42}".

(** [{"success": false, "error": "boom"}] *)
Definition answer_failed : string :=
  "{" ++ quoted "success" ++ ": false, " ++ quoted "error" ++ ": " ++ quoted "boom" ++ "}".


(** [{"success": true, "result": "[[[..."}], the inner text being 1000
    opening brackets. *)
Definition answer_inner_deep : string :=
  "{" ++ quoted "success" ++ ": true, " ++ quoted "result" ++ ": "
    ++ quoted (str_mul "[" 1000) ++ "}".

(** What the Ruby code of behavior_tester.py returns for one property:
    [{"all_methods": ["snapto"], "property_results":
       {"snapto": {"exists": true, "readable": true, "writable": true}}}] *)
Definition behavior_report : string :=
  "{" ++ quoted "all_methods" ++ ": [" ++ quoted "snapto" ++ "], "
    ++ quoted "property_results" ++ ": {" ++ quoted "snapto" ++ ": {"
    ++ quoted "exists" ++ ": true, " ++ quoted "readable" ++ ": true, "
    ++ quoted "writable" ++ ": true}}}".

(** [behavior_report] as a JSON string literal: every quote escaped. *)
Definition behavior_report_literal : string :=
  let q := "\" ++ dq in
  dq ++ "{" ++ q ++ "all_methods" ++ q ++ ": [" ++ q ++ "snapto" ++ q ++ "], "
    ++ q ++ "property_results" ++ q ++ ": {" ++ q ++ "snapto" ++ q ++ ": {"
    ++ q ++ "exists" ++ q ++ ": true, " ++ q ++ "readable" ++ q ++ ": true, "
    ++ q ++ "writable" ++ q ++ ": true}}}" ++ dq.

(** [{"success": true, "result": "<behavior_report>"}] *)
Definition answer_behavior : string :=
  "{" ++ quoted "success" ++ ": true, " ++ quoted "result" ++ ": "
    ++ behavior_report_literal ++ "}".

(** An answer behavior_tester.py copes with whatever it holds:
    [json.loads] raises [JSONDecodeError] on it, or decodes it to an
    object whose [success] is not truthy. *)
Definition declined (l : Json.limits) (response : string) : bool :=
  match Json.loads l response with
  | Ok (VDict d) => negb (truthy (field d "success"))
  | Raise (JSONDecodeError _) => true
  | _ => false
  end.

(** [m] relates, by [R], the state it ends in to the state it starts
    from, whether it returns or raises. *)
Definition keeps (R : state -> state -> Prop) {A} (m : M A) : Prop :=
  forall w st, R st (snd (m w st)).

(** The exceptions [json.loads] raises on a [str]. *)
Definition is_decoder_exn (e : exn) : bool :=
  match e with
  | JSONDecodeError _ | RecursionError | ValueError => true
  | _ => false
  end.

(** The exceptions the scanner raises: those of [json.loads], and the
    [StopIteration] that [json.loads] turns into 'Expecting value'. *)
Definition is_scanner_exn (e : exn) : bool :=
  match e with
  | StopIteration => true
  | _ => is_decoder_exn e
  end.

(** A scan that did not run out of fuel: it left less than [n]
    characters if it succeeded, and raised an exception of the scanner
    if it failed. *)
Definition fine {A} (n : nat) (r : option (res (A * string))) : Prop :=
  match r with
  | Some (Ok (_, rest)) => String.length rest < n
  | Some (Raise e) => is_scanner_exn e = true
  | None => False
  end.

(** The state a statement ends in holds the trace it started from and,
    after it, only events accepted by [P]. *)
Definition adds_only (P : event -> bool) (st st' : state) : Prop :=
  exists t, trace st' = (trace st ++ t)%list /\ forallb P t = true.

(** A log record whose message opens with the literal text [s]. *)
Definition opens_with (s : string) (e : event) : bool :=
  match e with
  | Log _ (Txt s' :: _) => String.eqb s' s
  | _ => false
  end.

(** ** Vocabulary of the further properties *)

(** The record behavior_tester.py writes for one method. *)
Definition method_line (m : value) : event := Log INFO [Txt "  - "; Fmt m].

(** What a line of the report is about: the value that follows its
    opening dash. *)
Definition subject (e : event) : option value :=
  match e with
  | Log INFO (Txt s :: Fmt v :: _) => if String.eqb s "  - " then Some v else None
  | _ => None
  end.

Definition is_object (v : value) : bool :=
  match v with VDict _ => true | _ => false end.

Definition is_text (v : value) : bool :=
  match v with VStr _ => true | _ => false end.

(** The values a [for] loop can walk. *)
Definition is_iterable (v : value) : bool :=
  match v with VList _ | VStr _ | VDict _ => true | _ => false end.

(** No string occurs twice in the list. *)
Fixpoint distinct (l : list string) : bool :=
  match l with
  | [] => true
  | x :: rest => (negb (existsb (String.eqb x) rest) && distinct rest)%bool
  end.

(** The statements of [behavior_tester.main] that follow the header of
    the report, as they stand there (lines 117 to 139). *)
Definition report_body (behavior_data : value) : M unit :=
  all_methods <- eval (subscript behavior_data "all_methods") ;;
  methods <- eval (iterate all_methods) ;;
  for_each methods tt
    (fun method _ => logger_info [Txt "  - "; Fmt method]) ;;
  logger_info [Txt "
Property test results:"] ;;
  property_results <- eval (subscript behavior_data "property_results") ;;
  pairs <- eval (items property_results) ;;
  for_each pairs tt
    (fun pair _ => behavior_tester.report_property (fst pair) (snd pair)).

(** The events of behavior_tester.py up to the header of its report. *)
Definition behavior_tester_header : list event :=
  (behavior_tester_before
     ++ [Log INFO [Txt "Available methods on Behavior object:"]])%list.

Definition is_error_log (e : event) : bool :=
  match e with Log ERROR _ => true | _ => false end.

(** The number of records written at level ERROR. *)
Definition count_errors (t : list event) : nat :=
  List.length (filter is_error_log t).

Definition is_print (e : event) : bool :=
  match e with Print _ => true | _ => false end.

(** The announcements and the requests of a trace, in order: a record
    [announce ++ name] at level INFO gives [inl name], a request gives
    [inr payload]. *)
Definition steps (announce : string) (t : list event) : list (string + string) :=
  flat_map
    (fun e =>
       match e with
       | Log INFO [Txt s; Fmt (VStr n)] =>
           if String.eqb s announce then [inl n] else []
       | Request _ p => [inr p]
       | _ => []
       end) t.

(** What a snippet contributes to [steps]: its name, then its code. *)
Definition snippet_steps (s : snippet) : list (string + string) :=
  [inl (name s); inr (code s)].

(** A string made of nothing but the decoder's whitespace. *)
Fixpoint blank (s : string) : bool :=
  match s with
  | EmptyString => true
  | String c rest => (Json.is_ws c && blank rest)%bool
  end.

(** * Properties *)

(** ** The decoder on sample inputs *)

Module JsonTests.
Import Py Json.

Example loads_object :
  loads default_limits ("{" ++ dq ++ "success" ++ dq ++ ": true, " ++ dq ++ "result" ++ dq ++ ": 42}")
  = Ok (VDict [("success", VBool true); ("result", VInt 42)]).
Proof. vm_compute. reflexivity. Qed.

Example loads_nested :
  loads default_limits (" [1, -2.50e3, [], {}, null, false, " ++ dq ++ "a\né" ++ dq ++ "] ")
  = Ok (VList [VInt 1; VFloat (FDec true 250 1); VList []; VDict []; VNone;
               VBool false;
               VStr (String "a" (String (ascii_of_nat 10)
                       (String (ascii_of_nat 195) (String (ascii_of_nat 169) EmptyString))))]).
Proof. vm_compute. reflexivity. Qed.

Example loads_duplicate_key :
  loads default_limits ("{" ++ dq ++ "a" ++ dq ++ ":1," ++ dq ++ "b" ++ dq ++ ":2," ++ dq ++ "a" ++ dq ++ ":3}")
  = Ok (VDict [("a", VInt 3); ("b", VInt 2)]).
Proof. vm_compute. reflexivity. Qed.

Example loads_empty : loads default_limits EmptyString = Raise (JSONDecodeError ExpectingValue).
Proof. reflexivity. Qed.

Example loads_word : loads default_limits "oops" = Raise (JSONDecodeError ExpectingValue).
Proof. reflexivity. Qed.

Example loads_extra : loads default_limits "01" = Raise (JSONDecodeError ExtraData).
Proof. reflexivity. Qed.

Example loads_trailing_comma : loads default_limits "[1,]" = Raise (JSONDecodeError ExpectingValue).
Proof. reflexivity. Qed.

Example loads_open_object : loads default_limits "{" = Raise (JSONDecodeError ExpectingPropertyName).
Proof. reflexivity. Qed.

Example loads_minus_infinity : loads default_limits "-Infinity" = Ok (VFloat (FInf true)).
Proof. reflexivity. Qed.

Example tiny_float_is_falsy :
  match loads default_limits "1e-400" with Ok v => truthy v | Raise _ => true end = false.
Proof. vm_compute. reflexivity. Qed.

Example small_float_is_truthy :
  match loads default_limits "2.5e-324" with Ok v => truthy v | Raise _ => false end = true.
Proof. vm_compute. reflexivity. Qed.

End JsonTests.

(** ** The decoder never runs out of fuel *)

Module JsonFuel.
Import Py Json.

Lemma fine_weaken {A} (n m : nat) (r : option (res (A * string))) :
  fine n r -> n <= m -> fine m r.
Proof. destruct r as [[[a rest]|e]|]; simpl; [lia | auto | auto]. Qed.

Lemma skip_ws_length (s : string) : String.length (skip_ws s) <= String.length s.
Proof.
  induction s as [|c s IH]; simpl; [lia|].
  destruct (is_ws c); simpl; lia.
Qed.

Lemma strip_prefix_length (p : string) :
  forall s r, strip_prefix p s = Some r ->
              String.length s = String.length p + String.length r.
Proof.
  induction p as [|a p IH]; intros s r; simpl.
  - intros H. inversion H. reflexivity.
  - destruct s as [|b s]; [discriminate|].
    destruct (Ascii.eqb a b); [|discriminate].
    intros H. apply IH in H. simpl. lia.
Qed.

Lemma digits_length (s : string) :
  forall acc n, String.length (snd (digits acc n s)) <= String.length s.
Proof.
  induction s as [|c s IH]; intros acc n; [simpl; lia|].
  cbn [digits]. destruct (is_digit c); [|cbn [snd String.length]; lia].
  etransitivity; [apply IH|]. cbn [String.length]. lia.
Qed.

Lemma digits_progress (c : ascii) (s : string) (acc n : Z) :
  is_digit c = true ->
  String.length (snd (digits acc n (String c s))) <= String.length s.
Proof. intros D. cbn [digits]. rewrite D. apply digits_length. Qed.

Lemma int_part_length (s : string) (v n : Z) (r : string) :
  int_part s = Some (v, n, r) -> String.length r < String.length s.
Proof.
  destruct s as [|c s]; [discriminate|]. unfold int_part.
  destruct (Nat.eqb (code c) 48).
  - intros H. inversion H. subst. cbn [String.length]. lia.
  - destruct (is_digit c) eqn:D; [|discriminate].
    pose proof (digits_progress c s 0%Z 0%Z D) as L.
    destruct (digits 0 0 (String c s)) as [[v' n'] r'].
    intros H. inversion H. subst. cbn [snd String.length] in *. lia.
Qed.

Lemma frac_part_length (s : string) (f n : Z) (r : string) :
  frac_part s = Some (f, n, r) -> String.length r < String.length s.
Proof.
  destruct s as [|dot [|c s]]; try discriminate. unfold frac_part.
  destruct (Nat.eqb (code dot) 46 && is_digit c)%bool eqn:E; [|discriminate].
  apply andb_true_iff in E. destruct E as [_ D].
  pose proof (digits_progress c s 0%Z 0%Z D) as L.
  destruct (digits 0 0 (String c s)) as [[v' n'] r'].
  intros H. inversion H. subst. cbn [snd String.length] in *. lia.
Qed.

Lemma exp_part_length (s : string) (e : Z) (r : string) :
  exp_part s = Some (e, r) -> String.length r < String.length s.
Proof.
  destruct s as [|c s]; [discriminate|]. unfold exp_part.
  destruct (Nat.eqb (code c) 101 || Nat.eqb (code c) 69)%bool; [|discriminate].
  assert (G : forall (minus : bool) (t : string),
             String.length t <= String.length s ->
             match t with
             | String c0 _ =>
                 if is_digit c0
                 then let '(v, _, rest) := digits 0 0 t in
                      Some (if minus then (- v)%Z else v, rest)
                 else None
             | EmptyString => None
             end = Some (e, r) -> String.length r < S (String.length s)).
  { intros minus t Lt. destruct t as [|c0 t]; [discriminate|].
    destruct (is_digit c0) eqn:D; [|discriminate].
    pose proof (digits_progress c0 t 0%Z 0%Z D) as L.
    destruct (digits 0 0 (String c0 t)) as [[v' n'] r'].
    intros H. inversion H. subst. cbn [snd String.length] in *. lia. }
  cbn [String.length].
  destruct s as [|sg s']; [discriminate|].
  destruct (Nat.eqb (code sg) 45).
  - intros H. apply (G true s'); [cbn [String.length]; lia | exact H].
  - destruct (Nat.eqb (code sg) 43); intros H;
      [apply (G false s') | apply (G false (String sg s'))];
      try exact H; cbn [String.length]; lia.
Qed.

(** A number that was matched left less than it was given, and the
    only exception of the conversion is [ValueError]. *)
Lemma match_number_fine (l : limits) (s : string) (found : res (value * string)) :
  match_number l s = Some found -> fine (String.length s) (Some found).
Proof.
  unfold match_number.
  assert (G : forall (neg : bool) (s1 : string),
             String.length s1 <= String.length s ->
             match int_part s1 with
             | None => None
             | Some (i, n_int, s2) =>
                 match frac_part s2, exp_part s2 with
                 | None, None =>
                     if too_many_digits l n_int then Some (Raise ValueError)
                     else Some (Ok (VInt (if neg then (- i)%Z else i), s2))
                 | None, Some (e, s3) => Some (Ok (VFloat (FDec neg i e), s3))
                 | Some (f, n, s3), _ =>
                     let mant := (i * 10 ^ n + f)%Z in
                     match exp_part s3 with
                     | None => Some (Ok (VFloat (FDec neg mant (- n)), s3))
                     | Some (e, s4) => Some (Ok (VFloat (FDec neg mant (e - n)), s4))
                     end
                 end
             end = Some found -> fine (String.length s) (Some found)).
  { intros neg s1 L1.
    destruct (int_part s1) as [[[i n_int] s2]|] eqn:I; [|discriminate].
    apply int_part_length in I.
    destruct (frac_part s2) as [[[f n] s3]|] eqn:F.
    - apply frac_part_length in F. cbv zeta.
      destruct (exp_part s3) as [[e s4]|] eqn:E.
      + apply exp_part_length in E. intros H. inversion H. subst. simpl. lia.
      + intros H. inversion H. subst. simpl. lia.
    - destruct (exp_part s2) as [[e s3]|] eqn:E.
      + apply exp_part_length in E. intros H. inversion H. subst. simpl. lia.
      + destruct (too_many_digits l n_int); intros H; inversion H; subst; simpl;
          [reflexivity | lia]. }
  destruct s as [|c s']; [apply (G false); simpl; lia|].
  destruct (Nat.eqb (code c) 45); apply G; simpl; lia.
Qed.

Lemma raise_errmsg_fine {A} (n depth : nat) (m : decode_msg) :
  fine n (Some (@raise_errmsg (A * string) depth m)).
Proof. unfold raise_errmsg. destruct (depth <? 3)%nat; reflexivity. Qed.

Lemma parse_constant_fine (n depth : nat) (v : value) (rest : string) :
  String.length rest < n -> fine n (Some (parse_constant depth v rest)).
Proof. intros L. destruct depth; simpl; [reflexivity | exact L]. Qed.

Lemma scan_atom_fine (l : limits) (depth : nat) (s : string) :
  fine (String.length s) (Some (scan_atom l depth s)).
Proof.
  unfold scan_atom.
  repeat match goal with
  | |- context [strip_prefix ?lit s] =>
      let E := fresh "E" in
      destruct (strip_prefix lit s) eqn:E;
      [apply strip_prefix_length in E;
       first [apply parse_constant_fine | idtac]; simpl in *; lia|]
  end.
  destruct (match_number l s) as [found|] eqn:N.
  - apply (match_number_fine l s found N).
  - reflexivity.
Qed.

Lemma hex4_length (s : string) (n : N) (r : string) :
  hex4 s = Some (n, r) -> String.length s = 4 + String.length r.
Proof.
  destruct s as [|a [|b [|c [|d s]]]]; simpl; try discriminate.
  destruct (hex_val a), (hex_val b), (hex_val c), (hex_val d); try discriminate.
  intros H. inversion H. reflexivity.
Qed.

Lemma unicode_escape_fine (depth : nat) (s : string) :
  fine (String.length s) (Some (unicode_escape depth s)).
Proof.
  unfold unicode_escape.
  destruct (hex4 s) as [[hi rest]|] eqn:H; [|apply raise_errmsg_fine].
  apply hex4_length in H.
  destruct rest as [|r0 rest0] eqn:Er; [apply raise_errmsg_fine|]. rewrite <- Er in *.
  destruct (((55296 <=? hi) && (hi <=? 56319))%N && (7 <=? code_points rest)%nat)%bool;
    [|simpl; lia].
  destruct (strip_prefix "\u" rest) as [rest'|] eqn:P; [|simpl; lia].
  apply strip_prefix_length in P. simpl in P.
  destruct (hex4 rest') as [[lo rest'']|] eqn:H'; [|apply raise_errmsg_fine].
  apply hex4_length in H'.
  destruct ((56320 <=? lo) && (lo <=? 57343))%N; simpl; lia.
Qed.

Lemma scanstring_fine (fuel depth : nat) :
  forall s, String.length s < fuel -> fine (String.length s) (scanstring fuel depth s).
Proof.
  induction fuel as [|fuel IH]; intros s L; [lia|].
  destruct s as [|c rest]; cbn [scanstring]; [apply raise_errmsg_fine|].
  cbn [String.length] in L |- *.
  destruct (Nat.eqb (code c) 34); [simpl; lia|].
  destruct (Nat.eqb (code c) 92).
  - destruct rest as [|e rest']; [apply raise_errmsg_fine|]. cbn [String.length] in L |- *.
    destruct (Nat.eqb (code e) 117).
    + pose proof (unicode_escape_fine depth rest') as U.
      destruct (unicode_escape depth rest') as [[cp rest'']|x]; simpl in U; [|exact U].
      assert (L' : String.length rest'' < fuel) by lia.
      specialize (IH rest'' L').
      destruct (scanstring fuel depth rest'') as [[[body after]|x]|]; simpl in *;
        [lia | exact IH | exact IH].
    + destruct (backslash e); [|apply raise_errmsg_fine].
      assert (L' : String.length rest' < fuel) by lia.
      specialize (IH rest' L').
      destruct (scanstring fuel depth rest') as [[[body after]|x]|]; simpl in *;
        [lia | exact IH | exact IH].
  - destruct (code c <? 32)%nat; [apply raise_errmsg_fine|].
    assert (L' : String.length rest < fuel) by lia.
    specialize (IH rest L').
    destruct (scanstring fuel depth rest) as [[[body after]|x]|]; simpl in *;
      [lia | exact IH | exact IH].
Qed.

Lemma scan_string_fine (depth : nat) (s : string) :
  fine (S (String.length s)) (scan_string depth s).
Proof.
  unfold scan_string.
  pose proof (scanstring_fine (String.length s + 1) depth s) as F.
  destruct (scanstring (String.length s + 1) depth s) as [[[body after]|x]|]; simpl in *;
    [assert (String.length after < String.length s) by (apply F; lia); lia
    | apply F; lia | apply F; lia].
Qed.

(** Records what [skip_ws] leaves of [s]. *)
Ltac skip_ws_case s c rest :=
  let W := fresh "W" in
  let LW := fresh "LW" in
  pose proof (skip_ws_length s) as LW;
  destruct (skip_ws s) as [|c rest] eqn:W;
  cbn [String.length] in LW.

(** With fuel for twice the length of the text and one more, a scan
    comes to its result, whatever depth it is allowed. *)
Lemma scan_fine (l : limits) (fuel : nat) :
  (forall depth s, 2 * String.length s + 1 <= fuel ->
                   fine (String.length s) (scan_once l fuel depth s))
  /\ (forall depth s acc, 2 * String.length s + 1 <= fuel ->
                          fine (String.length s) (object_members l fuel depth s acc))
  /\ (forall depth s acc, 2 * String.length s + 2 <= fuel ->
                          fine (String.length s) (array_items l fuel depth s acc)).
Proof.
  induction fuel as [|fuel [IHscan [IHobj IHarr]]].
  - repeat split; intros; lia.
  - split; [|split].
    + (* scan_once *)
      intros depth s L. destruct s as [|c rest]; [simpl; reflexivity|].
      cbn [String.length] in L |- *. cbn [scan_once].
      destruct (Nat.eqb (code c) 34); [apply scan_string_fine|].
      destruct (Nat.eqb (code c) 123).
      { destruct depth as [|depth]; [reflexivity|].
        skip_ws_case rest c' after.
        - apply (fine_weaken 0); [apply IHobj; simpl; lia | lia].
        - destruct (Nat.eqb (code c') 125); [simpl; lia|].
          eapply fine_weaken; [apply IHobj|]; cbn [String.length]; lia. }
      destruct (Nat.eqb (code c) 91).
      { destruct depth as [|depth]; [reflexivity|].
        skip_ws_case rest c' after.
        - apply (fine_weaken 0); [apply IHarr; simpl; lia | lia].
        - destruct (Nat.eqb (code c') 93); [simpl; lia|].
          eapply fine_weaken; [apply IHarr|]; cbn [String.length]; lia. }
      apply (scan_atom_fine l depth (String c rest)).
    + (* object_members *)
      intros depth s acc L. destruct s as [|q rest]; [apply raise_errmsg_fine|].
      cbn [String.length] in L |- *. cbn [object_members].
      destruct (Nat.eqb (code q) 34); [|apply raise_errmsg_fine].
      pose proof (scanstring_fine (String.length rest + 1) depth rest) as F.
      destruct (scanstring (String.length rest + 1) depth rest) as [[[key after_key]|x]|];
        [|simpl in *; apply F; lia|simpl in *; apply F; lia].
      assert (Lk : String.length after_key < String.length rest) by (apply F; lia).
      skip_ws_case after_key colon after_colon; [apply raise_errmsg_fine|].
      destruct (Nat.eqb (code colon) 58); [|apply raise_errmsg_fine].
      pose proof (skip_ws_length after_colon) as Lc.
      assert (Fv : fine (String.length (skip_ws after_colon))
                     (scan_once l fuel depth (skip_ws after_colon)))
        by (apply IHscan; lia).
      destruct (scan_once l fuel depth (skip_ws after_colon))
        as [[[v after_value]|x]|]; [|exact Fv|exact Fv].
      simpl in Fv. cbv zeta.
      skip_ws_case after_value d after_d; [apply raise_errmsg_fine|].
      destruct (Nat.eqb (code d) 125); [simpl; lia|].
      destruct (Nat.eqb (code d) 44); [|apply raise_errmsg_fine].
      pose proof (skip_ws_length after_d) as Ld.
      eapply fine_weaken; [apply IHobj|]; lia.
    + (* array_items *)
      intros depth s acc L. cbn [array_items].
      assert (Fv : fine (String.length s) (scan_once l fuel depth s))
        by (apply IHscan; lia).
      destruct (scan_once l fuel depth s) as [[[v after_value]|x]|];
        [|exact Fv|exact Fv].
      simpl in Fv. cbv zeta.
      skip_ws_case after_value d after_d; [apply raise_errmsg_fine|].
      destruct (Nat.eqb (code d) 93); [simpl; lia|].
      destruct (Nat.eqb (code d) 44); [|apply raise_errmsg_fine].
      pose proof (skip_ws_length after_d) as Ld.
      eapply fine_weaken; [apply IHarr|]; lia.
Qed.

(** The fuel that [loads] gives its scanner is never used up: the
    scan comes to a value or to an exception of the decoder. *)
Lemma loads_fuel (l : limits) (s : string) :
  scan_once l (2 * String.length s + 2) (max_depth l) (skip_ws s) <> None.
Proof.
  pose proof (skip_ws_length s) as Lw.
  assert (Fv : fine (String.length (skip_ws s))
                 (scan_once l (2 * String.length s + 2) (max_depth l) (skip_ws s)))
    by (apply scan_fine; lia).
  intros E. rewrite E in Fv. exact Fv.
Qed.


(** More fuel than [loads] gives changes nothing. *)
Lemma scan_more_fuel (l : limits) (fuel : nat) :
  (forall depth s r, scan_once l fuel depth s = Some r ->
                     scan_once l (S fuel) depth s = Some r)
  /\ (forall depth s acc r, object_members l fuel depth s acc = Some r ->
                            object_members l (S fuel) depth s acc = Some r)
  /\ (forall depth s acc r, array_items l fuel depth s acc = Some r ->
                            array_items l (S fuel) depth s acc = Some r).
Proof.
  induction fuel as [|fuel [IHscan [IHobj IHarr]]].
  - repeat split; intros; discriminate.
  - split; [|split].
    + intros depth s r. destruct s as [|c rest]; [exact (fun H => H)|].
      cbn [scan_once].
      destruct (Nat.eqb (code c) 34); [exact (fun H => H)|].
      destruct (Nat.eqb (code c) 123).
      { destruct depth as [|depth]; [exact (fun H => H)|].
        destruct (skip_ws rest) as [|c' after]; [apply IHobj|].
        destruct (Nat.eqb (code c') 125); [exact (fun H => H) | apply IHobj]. }
      destruct (Nat.eqb (code c) 91).
      { destruct depth as [|depth]; [exact (fun H => H)|].
        destruct (skip_ws rest) as [|c' after]; [apply IHarr|].
        destruct (Nat.eqb (code c') 93); [exact (fun H => H) | apply IHarr]. }
      exact (fun H => H).
    + intros depth s acc r. destruct s as [|q rest]; [exact (fun H => H)|].
      cbn [object_members].
      destruct (Nat.eqb (code q) 34); [|exact (fun H => H)].
      destruct (scanstring (String.length rest + 1) depth rest) as [[[key after_key]|x]|];
        try exact (fun H => H).
      destruct (skip_ws after_key) as [|colon after_colon]; [exact (fun H => H)|].
      destruct (Nat.eqb (code colon) 58); [|exact (fun H => H)].
      destruct (scan_once l fuel depth (skip_ws after_colon)) as [r0|] eqn:E;
        [|discriminate].
      rewrite (IHscan _ _ _ E).
      destruct r0 as [[v after_value]|x]; [|exact (fun H => H)].
      cbv zeta.
      destruct (skip_ws after_value) as [|d after_d]; [exact (fun H => H)|].
      destruct (Nat.eqb (code d) 125); [exact (fun H => H)|].
      destruct (Nat.eqb (code d) 44); [apply IHobj | exact (fun H => H)].
    + intros depth s acc r. cbn [array_items].
      destruct (scan_once l fuel depth s) as [r0|] eqn:E; [|discriminate].
      rewrite (IHscan _ _ _ E).
      destruct r0 as [[v after_value]|x]; [|exact (fun H => H)].
      cbv zeta.
      destruct (skip_ws after_value) as [|d after_d]; [exact (fun H => H)|].
      destruct (Nat.eqb (code d) 93); [exact (fun H => H)|].
      destruct (Nat.eqb (code d) 44); [apply IHarr | exact (fun H => H)].
Qed.

(** Nesting one level deeper than the interpreter allows: the scanner
    raises [RecursionError] when it meets the bracket it cannot enter. *)
Lemma scan_too_deep (l : limits) (depth : nat) :
  forall fuel, 2 * depth + 1 <= fuel ->
    scan_once l fuel depth (str_mul "[" (S depth)) = Some (Raise RecursionError).
Proof.
  induction depth as [|depth IH]; intros fuel L.
  - destruct fuel as [|fuel]; [lia|]. reflexivity.
  - destruct fuel as [|[|fuel]]; try lia.
    change (str_mul "[" (S (S depth))) with (String "[" (str_mul "[" (S depth))).
    cbn [scan_once]. change (Nat.eqb (code "[") 34) with false.
    change (Nat.eqb (code "[") 123) with false.
    change (Nat.eqb (code "[") 91) with true. cbv iota.
    change (str_mul "[" (S depth)) with (String "[" (str_mul "[" depth)).
    cbn [skip_ws]. change (is_ws "[") with false. cbv iota.
    change (Nat.eqb (code "[") 93) with false. cbv iota.
    cbn [array_items].
    change (String "[" (str_mul "[" depth)) with (str_mul "[" (S depth)).
    rewrite IH by lia. reflexivity.
Qed.

Lemma str_mul_length (c : ascii) (n : nat) :
  String.length (str_mul (String c EmptyString) n) = n.
Proof. induction n as [|n IH]; [reflexivity|]. simpl. rewrite IH. reflexivity. Qed.

(** [json.loads('[' * n)] with [n] above the depth the interpreter
    allows raises [RecursionError]. *)
Lemma loads_too_deep (l : limits) :
  loads l (str_mul "[" (S (max_depth l))) = Raise RecursionError.
Proof.
  unfold loads.
  change (str_mul "[" (S (max_depth l)))
    with (String "[" (str_mul "[" (max_depth l))).
  cbn [strip_prefix bom]. change (Ascii.eqb (ascii_of_nat 239) "[") with false.
  cbv iota. cbn [skip_ws]. change (is_ws "[") with false. cbv iota.
  change (String "[" (str_mul "[" (max_depth l)))
    with (str_mul "[" (S (max_depth l))).
  rewrite scan_too_deep; [reflexivity|].
  rewrite str_mul_length. lia.
Qed.

End JsonFuel.

(** ** Runs *)

Lemma get_dict (d : list (string * value)) (k : string) :
  get (VDict d) k = Ok (field d k).
Proof. reflexivity. Qed.

(** Unfolds the monad down to state transformers. *)
Ltac monad :=
  unfold run, Client, client_is_connected, client_eval_ruby, server_eval_ruby,
    logger_info, logger_error, print;
  unfold bind, ret, eval, json_loads, json_loads_value, emit, try_except, request.

(** C4: with [client.is_connected] false, each example script (the four
    of the claim and behavior_tester) logs the connection error and
    returns; its trace holds no remote request. *)
Theorem C4_no_request_when_disconnected (f : file) (w : world) :
  is_example f = true ->
  is_connected w = false ->
  run (program f) w =
    (Ok tt,
     {| trace := [Connect "sketchup";
                  Log ERROR [Txt "Failed to connect to the SketchUp MCP server."]];
        sent := 0 |})
  /\ requests (events (program f) w) = [].
Proof.
  intros Hf Hw.
  assert (E : run (program f) w =
    (Ok tt,
     {| trace := [Connect "sketchup";
                  Log ERROR [Txt "Failed to connect to the SketchUp MCP server."]];
        sent := 0 |})).
  { destruct f; try discriminate Hf;
      unfold program, simple_test.main, simple_ruby_eval.main, ruby_tester.main,
        behavior_tester.main, arts_and_crafts_cabinet.main;
      monad; rewrite Hw; reflexivity. }
  split; [exact E|].
  unfold events. rewrite E. reflexivity.
Qed.

Lemma C4_witness :
  let w := always false "ignored" in
  run (program RubyTester) w =
    (Ok tt,
     {| trace := [Connect "sketchup";
                  Log ERROR [Txt "Failed to connect to the SketchUp MCP server."]];
        sent := 0 |})
  /\ requests (events (program RubyTester) w) = [].
Proof.
  exact (C4_no_request_when_disconnected RubyTester (always false "ignored")
           eq_refl eq_refl).
Defined.

(** ** The smoke test *)

(** What the smoke test does, whatever the answer: one request, the raw
    answer printed, then the decoded value printed, or the decoder's
    exception let through. *)
Lemma smoke_test_run (w : world) :
  let result := respond w 0 test_eval_ruby.test_code in
  let sent_and_printed :=
    [Request (ServerFunction "eval_ruby" MockContext_new) test_eval_ruby.test_code;
     Print [Txt "Result: "; Fmt (VStr result)]] in
  run test_eval_ruby.toplevel w =
    match Json.loads (limits w) result with
    | Ok parsed =>
        (Ok tt,
         {| trace := (sent_and_printed ++ [Print [Txt "Parsed: "; Dumps 2 parsed]])%list;
            sent := 1 |})
    | Raise e => (Raise e, {| trace := sent_and_printed; sent := 1 |})
    end.
Proof.
  unfold test_eval_ruby.toplevel. monad. simpl.
  destruct (Json.loads (limits w) (respond w 0 test_eval_ruby.test_code)); reflexivity.
Qed.



(** ** The scripts that send one request *)

(** simple_test.py, connected: every case of the answer. *)
Lemma simple_test_run (w : world) :
  is_connected w = true ->
  let response := respond w 0 simple_test.CUBE_CODE in
  let before :=
    [Connect "sketchup";
     Log INFO [Txt "Connected to SketchUp MCP server."];
     Log INFO [Txt "Creating a simple cube..."];
     Request (ClientMethod "eval_ruby") simple_test.CUBE_CODE] in
  run simple_test.main w =
    match Json.loads (limits w) response with
    | Ok (VDict d) =>
        (Ok tt,
         {| trace := (before ++
              [verdict "Cube created successfully! Group ID: " "Failed to create cube: " d;
               Log INFO [Txt "Test completed."]])%list;
            sent := 1 |})
    | Ok _ => (Raise AttributeError, {| trace := before; sent := 1 |})
    | Raise (JSONDecodeError m) =>
        (Ok tt,
         {| trace := (before ++
              [Log ERROR [Txt "Failed to parse response: "; Fmt (VStr response)];
               Log INFO [Txt "Test completed."]])%list;
            sent := 1 |})
    | Raise e => (Raise e, {| trace := before; sent := 1 |})
    end.
Proof.
  intros Hw. unfold simple_test.main. monad. rewrite Hw. simpl.
  destruct (Json.loads (limits w) (respond w 0 simple_test.CUBE_CODE)) as [v|e].
  - destruct v; try reflexivity.
    rewrite get_dict. unfold verdict.
    destruct (truthy (field entries "success")); reflexivity.
  - destruct e; reflexivity.
Qed.

(** arts_and_crafts_cabinet.py, connected: every case of the answer. *)
Lemma cabinet_run (w : world) :
  is_connected w = true ->
  let response := respond w 0 arts_and_crafts_cabinet.CABINET_RUBY_CODE in
  let before :=
    [Connect "sketchup";
     Log INFO [Txt "Connected to SketchUp MCP server."];
     Log INFO [Txt "Creating arts and crafts cabinet..."];
     Request (ClientMethod "eval_ruby") arts_and_crafts_cabinet.CABINET_RUBY_CODE] in
  run arts_and_crafts_cabinet.main w =
    match Json.loads (limits w) response with
    | Ok (VDict d) =>
        (Ok tt,
         {| trace := (before ++
              [verdict "Cabinet created successfully! Result: "
                 "Failed to create cabinet: " d;
               Log INFO [Txt "Example completed."]])%list;
            sent := 1 |})
    | Ok _ => (Raise AttributeError, {| trace := before; sent := 1 |})
    | Raise (JSONDecodeError m) =>
        (Ok tt,
         {| trace := (before ++
              [Log ERROR [Txt "Failed to parse response: "; Fmt (VStr response)];
               Log INFO [Txt "Example completed."]])%list;
            sent := 1 |})
    | Raise e => (Raise e, {| trace := before; sent := 1 |})
    end.
Proof.
  intros Hw. unfold arts_and_crafts_cabinet.main. monad. rewrite Hw. simpl.
  destruct (Json.loads (limits w) (respond w 0 arts_and_crafts_cabinet.CABINET_RUBY_CODE)) as [v|e].
  - destruct v; try reflexivity.
    rewrite get_dict. unfold verdict.
    destruct (truthy (field entries "success")); reflexivity.
  - destruct e; reflexivity.
Qed.

(** ** The scripts that walk a list *)

(** Folds nested appends of a trace into one. *)
Ltac flatten_trace := simpl; repeat (rewrite <- app_assoc; simpl).

(** One turn of the loop of simple_ruby_eval.py, from any state: every
    case of the answer. *)
Lemma run_example_eq (ex : snippet) (w : world) (st : state) :
  let response := respond w (sent st) (code ex) in
  let before :=
    (trace st ++
       [Log INFO [Txt "Running example: "; Fmt (VStr (name ex))];
        Request (ClientMethod "eval_ruby") (code ex)])%list in
  simple_ruby_eval.run_example ex w st =
    match Json.loads (limits w) response with
    | Ok (VDict d) =>
        (Ok tt,
         {| trace := (before ++
              [verdict "Result: " "Error: " d; Log INFO [Txt (str_mul "-" 40)]])%list;
            sent := S (sent st) |})
    | Ok _ => (Raise AttributeError, {| trace := before; sent := S (sent st) |})
    | Raise (JSONDecodeError m) =>
        (Ok tt,
         {| trace := (before ++
              [Log ERROR [Txt "Failed to parse response: "; Fmt (VStr response)];
               Log INFO [Txt (str_mul "-" 40)]])%list;
            sent := S (sent st) |})
    | Raise e => (Raise e, {| trace := before; sent := S (sent st) |})
    end.
Proof.
  unfold simple_ruby_eval.run_example. monad. simpl.
  destruct (Json.loads (limits w) (respond w (sent st) (code ex))) as [v|e].
  - destruct v; try (flatten_trace; reflexivity).
    rewrite get_dict. unfold verdict.
    destruct (truthy (field entries "success")); flatten_trace; reflexivity.
  - destruct e; flatten_trace; reflexivity.
Qed.

(** [test_ruby_code] of ruby_tester.py, from any state: every case of
    the answer. *)
Lemma test_ruby_code_eq (tc : snippet) (w : world) (st : state) :
  let response := respond w (sent st) (code tc) in
  let before :=
    (trace st ++
       [Log INFO [Txt "Testing: "; Fmt (VStr (name tc))];
        Request (ClientMethod "eval_ruby") (code tc)])%list in
  ruby_tester.test_ruby_code tc w st =
    match Json.loads (limits w) response with
    | Ok (VDict d) =>
        (Ok (truthy (field d "success")),
         {| trace := (before ++ [verdict "✅ SUCCESS: " "❌ ERROR: " d])%list;
            sent := S (sent st) |})
    | Ok _ => (Raise AttributeError, {| trace := before; sent := S (sent st) |})
    | Raise (JSONDecodeError m) =>
        (Ok false,
         {| trace := (before ++
              [Log ERROR [Txt "Failed to parse response: "; Fmt (VStr response)]])%list;
            sent := S (sent st) |})
    | Raise e => (Raise e, {| trace := before; sent := S (sent st) |})
    end.
Proof.
  unfold ruby_tester.test_ruby_code. monad. simpl.
  destruct (Json.loads (limits w) (respond w (sent st) (code tc))) as [v|e].
  - destruct v; try (flatten_trace; reflexivity).
    rewrite get_dict. unfold verdict.
    destruct (truthy (field entries "success")); flatten_trace; reflexivity.
  - destruct e; flatten_trace; reflexivity.
Qed.

Lemma requests_app (t1 t2 : list event) :
  requests (t1 ++ t2) = (requests t1 ++ requests t2)%list.
Proof. unfold requests. apply flat_map_app. Qed.

(** One turn of the loop of ruby_tester.py. *)
Lemma run_test_eq (tc : snippet) (n : nat) (w : world) (st : state) :
  ruby_tester.run_test tc n w st =
    match ruby_tester.test_ruby_code tc w st with
    | (Ok passed, st') =>
        (Ok (if passed then n + 1 else n),
         {| trace := (trace st' ++ [Log INFO [Txt (str_mul "-" 50)]])%list;
            sent := sent st' |})
    | (Raise e, st') => (Raise e, st')
    end.
Proof.
  unfold ruby_tester.run_test. monad.
  destruct (ruby_tester.test_ruby_code tc w st) as [[passed|e] st']; reflexivity.
Qed.

(** The loop of simple_ruby_eval.py over answerable answers: it runs
    to its end and sends every snippet, in order. *)
Lemma examples_loop (exs : list snippet) :
  forall (w : world) (st : state),
    forallb (answerable (limits w)) (answers w (sent st) (map code exs)) = true ->
    exists t,
      for_each exs tt (fun ex _ => simple_ruby_eval.run_example ex) w st
        = (Ok tt, {| trace := (trace st ++ t)%list; sent := sent st + List.length exs |})
      /\ requests t = client_requests exs.
Proof.
  induction exs as [|ex exs IH]; intros w st H.
  - exists []. simpl. unfold ret. rewrite app_nil_r, Nat.add_0_r.
    destruct st; auto.
  - simpl in H. apply andb_true_iff in H. destruct H as [Hex Hrest].
    simpl. unfold bind at 1. rewrite run_example_eq. cbv zeta.
    unfold answerable in Hex.
    destruct (Json.loads (limits w) (respond w (sent st) (code ex))) as [v|e].
    + destruct v; try discriminate Hex.
      match goal with |- context [for_each exs tt _ w ?s] =>
        destruct (IH w s Hrest) as [t [E R]]; rewrite E end.
      simpl. eexists. split.
      * rewrite <- !app_assoc. simpl. rewrite Nat.add_succ_r. reflexivity.
      * unfold verdict, requests in *.
        destruct (truthy _); simpl; rewrite R; reflexivity.
    + destruct e; try discriminate Hex.
      match goal with |- context [for_each exs tt _ w ?s] =>
        destruct (IH w s Hrest) as [t [E R]]; rewrite E end.
      simpl. eexists. split.
      * rewrite <- !app_assoc. simpl. rewrite Nat.add_succ_r. reflexivity.
      * unfold requests in *. simpl. rewrite R. reflexivity.
Qed.

(** The loop of ruby_tester.py over answerable answers: it runs to its
    end, sends every snippet in order, and adds to [success_count] the
    number of answers that pass. *)
Lemma tests_loop (tcs : list snippet) :
  forall (w : world) (st : state) (n : nat),
    forallb (answerable (limits w)) (answers w (sent st) (map code tcs)) = true ->
    exists t,
      for_each tcs n ruby_tester.run_test w st
        = (Ok (n + List.length (filter (passes (limits w)) (answers w (sent st) (map code tcs)))),
           {| trace := (trace st ++ t)%list; sent := sent st + List.length tcs |})
      /\ requests t = client_requests tcs.
Proof.
  induction tcs as [|tc tcs IH]; intros w st n H.
  - exists []. simpl. unfold ret. rewrite app_nil_r, !Nat.add_0_r.
    destruct st; auto.
  - simpl in H. apply andb_true_iff in H. destruct H as [Htc Hrest].
    simpl. unfold bind at 1. rewrite run_test_eq, test_ruby_code_eq. cbv zeta.
    unfold answerable in Htc. unfold passes at 1.
    destruct (Json.loads (limits w) (respond w (sent st) (code tc))) as [v|e].
    + destruct v; try discriminate Htc.
      match goal with |- context [for_each tcs ?k _ w ?s] =>
        destruct (IH w s k Hrest) as [t [E R]]; rewrite E end.
      simpl. eexists. split.
      * rewrite <- !app_assoc. simpl. rewrite Nat.add_succ_r.
        destruct (truthy (field entries "success")); simpl;
          repeat f_equal; lia.
      * unfold verdict, requests in *.
        destruct (truthy _); simpl; rewrite R; reflexivity.
    + destruct e; try discriminate Htc.
      match goal with |- context [for_each tcs ?k _ w ?s] =>
        destruct (IH w s k Hrest) as [t [E R]]; rewrite E end.
      simpl. eexists. split.
      * rewrite <- !app_assoc. simpl. rewrite Nat.add_succ_r. reflexivity.
      * unfold requests in *. simpl. rewrite R. reflexivity.
Qed.

(** ** Statements that keep a relation between states *)

Section Keeps.

Variable R : state -> state -> Prop.
Hypothesis R_refl : forall st, R st st.
Hypothesis R_trans : forall a b c, R a b -> R b c -> R a c.

Lemma keeps_ret {A} (a : A) : keeps R (ret a).
Proof. intros w st. apply R_refl. Qed.

Lemma keeps_eval {A} (r : res A) : keeps R (eval r).
Proof. intros w st. apply R_refl. Qed.

Lemma keeps_json_loads (s : string) : keeps R (json_loads s).
Proof. intros w st. apply R_refl. Qed.

Lemma keeps_json_loads_value (v : value) : keeps R (json_loads_value v).
Proof. intros w st. apply R_refl. Qed.

Lemma keeps_is_connected : keeps R client_is_connected.
Proof. intros w st. apply R_refl. Qed.

Lemma keeps_bind {A B} (m : M A) (k : A -> M B) :
  keeps R m -> (forall a, keeps R (k a)) -> keeps R (bind m k).
Proof.
  intros Hm Hk w st. unfold bind.
  specialize (Hm w st). destruct (m w st) as [[a|e] st']; simpl in *.
  - eapply R_trans; [exact Hm | apply Hk].
  - exact Hm.
Qed.

Lemma keeps_try {A} (body : M A) (handles : exn -> bool) (handler : exn -> M A) :
  keeps R body -> (forall e, keeps R (handler e)) ->
  keeps R (try_except body handles handler).
Proof.
  intros Hb Hh w st. unfold try_except.
  specialize (Hb w st). destruct (body w st) as [[a|e] st']; simpl in *.
  - exact Hb.
  - destruct (handles e); simpl.
    + eapply R_trans; [exact Hb | apply Hh].
    + exact Hb.
Qed.

Lemma keeps_for_each {A S} (body : A -> S -> M S) (xs : list A) :
  (forall x acc, keeps R (body x acc)) ->
  forall acc, keeps R (for_each xs acc body).
Proof.
  intros Hb. induction xs as [|x xs IH]; intros acc; simpl.
  - apply keeps_ret.
  - apply keeps_bind; [apply Hb | intros a; apply IH].
Qed.

End Keeps.

Lemma same_requests_refl (st : state) : same_requests st st.
Proof. reflexivity. Qed.

Lemma same_requests_trans (a b c : state) :
  same_requests a b -> same_requests b c -> same_requests a c.
Proof. unfold same_requests. congruence. Qed.

Lemma log_same_requests (lvl : level) (msg : message) :
  keeps same_requests (emit (Log lvl msg)).
Proof.
  intros w st. unfold same_requests, emit. simpl.
  rewrite requests_app. simpl. apply app_nil_r.
Qed.

(** Decomposes a statement made of logging, evaluation, branching,
    handlers and loops into its parts. *)
Ltac only_logs :=
  repeat first
    [ apply log_same_requests
    | apply (keeps_ret _ same_requests_refl)
    | apply (keeps_eval _ same_requests_refl)
    | apply (keeps_json_loads _ same_requests_refl)
    | apply (keeps_json_loads_value _ same_requests_refl)
    | apply (keeps_bind _ same_requests_trans); [|intro]
    | apply (keeps_try _ same_requests_trans); [|intro]
    | apply (keeps_for_each _ same_requests_refl same_requests_trans); intros
    | match goal with
      | |- keeps _ (if ?b then _ else _) => destruct b
      | |- keeps _ (let _ := _ in _) => cbv zeta
      end
    | progress cbv beta zeta ].

(** ** Statements that let no [JSONDecodeError] out *)

Lemma quiet_ret {A} (a : A) : quiet (ret a).
Proof. intros w st e H. discriminate H. Qed.

Lemma quiet_emit (ev : event) : quiet (emit ev).
Proof. intros w st e H. discriminate H. Qed.

Lemma quiet_request (via : entry) (payload : string) : quiet (request via payload).
Proof. intros w st e H. discriminate H. Qed.

Lemma quiet_is_connected : quiet client_is_connected.
Proof. intros w st e H. discriminate H. Qed.

Lemma quiet_bind {A B} (m : M A) (k : A -> M B) :
  quiet m -> (forall a, quiet (k a)) -> quiet (bind m k).
Proof.
  intros Hm Hk w st e. unfold bind.
  specialize (Hm w st). destruct (m w st) as [[a|e'] st']; simpl in *.
  - apply Hk.
  - intros H. inversion H. subst. apply Hm. reflexivity.
Qed.

(** A handler for [JSONDecodeError] makes any body quiet, provided the
    handler itself is. *)
Lemma quiet_try {A} (body : M A) (handler : exn -> M A) :
  (forall e, quiet (handler e)) ->
  quiet (try_except body is_JSONDecodeError handler).
Proof.
  intros Hh w st e. unfold try_except.
  destruct (body w st) as [[a|e'] st']; simpl.
  - discriminate.
  - destruct (is_JSONDecodeError e') eqn:E; simpl.
    + apply Hh.
    + intros H. inversion H. subst. exact E.
Qed.

Lemma quiet_for_each {A S} (body : A -> S -> M S) (xs : list A) :
  (forall x acc, quiet (body x acc)) ->
  forall acc, quiet (for_each xs acc body).
Proof.
  intros Hb. induction xs as [|x xs IH]; intros acc; simpl.
  - apply quiet_ret.
  - apply quiet_bind; [apply Hb | intros a; apply IH].
Qed.

Ltac quiet_steps :=
  repeat first
    [ apply quiet_emit
    | apply quiet_ret
    | apply quiet_request
    | apply quiet_is_connected
    | apply quiet_try; intro
    | apply quiet_bind; [|intro]
    | apply quiet_for_each; intros
    | match goal with
      | |- quiet (if ?b then _ else _) => destruct b
      | |- quiet (let _ := _ in _) => cbv zeta
      end ].


Lemma quiet_run_example (ex : snippet) : quiet (simple_ruby_eval.run_example ex).
Proof.
  unfold simple_ruby_eval.run_example, client_eval_ruby, logger_info, logger_error.
  quiet_steps.
Qed.


Lemma quiet_test_ruby_code (tc : snippet) : quiet (ruby_tester.test_ruby_code tc).
Proof.
  unfold ruby_tester.test_ruby_code, client_eval_ruby, logger_info, logger_error.
  quiet_steps.
Qed.





(** ** What a loop sends *)

Section LoopRequests.

Context {A St : Type}.
Variable body : A -> St -> M St.
Variable req : A -> entry * string.

(** Each turn sends one request, whatever its outcome. *)
Hypothesis one_request_per_turn :
  forall x acc w st,
    requests (trace (snd (body x acc w st))) = (requests (trace st) ++ [req x])%list.

Lemma for_each_sends_prefix (xs : list A) :
  forall acc w st,
    exists k,
      requests (trace (snd (for_each xs acc body w st)))
        = (requests (trace st) ++ firstn k (map req xs))%list.
Proof.
  induction xs as [|x xs IH]; intros acc w st.
  - exists 0. simpl. symmetry. apply app_nil_r.
  - simpl. unfold bind.
    pose proof (one_request_per_turn x acc w st) as Hx.
    destruct (body x acc w st) as [[acc'|e] st']; simpl in *.
    + destruct (IH acc' w st') as [k Hk].
      exists (S k). rewrite Hk, Hx, <- app_assoc. reflexivity.
    + exists 1. rewrite Hx. destruct xs; reflexivity.
Qed.

Lemma for_each_sends_all (xs : list A) :
  forall acc w st a,
    fst (for_each xs acc body w st) = Ok a ->
    requests (trace (snd (for_each xs acc body w st)))
      = (requests (trace st) ++ map req xs)%list.
Proof.
  induction xs as [|x xs IH]; intros acc w st a.
  - simpl. intros _. symmetry. apply app_nil_r.
  - simpl. unfold bind.
    pose proof (one_request_per_turn x acc w st) as Hx.
    destruct (body x acc w st) as [[acc'|e] st']; simpl in *.
    + intros H. rewrite (IH acc' w st' a H), Hx, <- app_assoc. reflexivity.
    + discriminate.
Qed.

End LoopRequests.

Lemma run_example_requests (ex : snippet) (acc : unit) (w : world) (st : state) :
  requests (trace (snd (simple_ruby_eval.run_example ex w st)))
    = (requests (trace st) ++ [(ClientMethod "eval_ruby", code ex)])%list.
Proof.
  rewrite run_example_eq. cbv zeta.
  destruct (Json.loads (limits w) (respond w (sent st) (code ex))) as [v|e];
    [destruct v | destruct e]; simpl; unfold verdict;
    try destruct (truthy _); simpl; rewrite ?requests_app; simpl;
    rewrite ?app_nil_r; reflexivity.
Qed.

Lemma run_test_requests (tc : snippet) (n : nat) (w : world) (st : state) :
  requests (trace (snd (ruby_tester.run_test tc n w st)))
    = (requests (trace st) ++ [(ClientMethod "eval_ruby", code tc)])%list.
Proof.
  rewrite run_test_eq, test_ruby_code_eq. cbv zeta.
  destruct (Json.loads (limits w) (respond w (sent st) (code tc))) as [v|e];
    [destruct v | destruct e]; simpl; unfold verdict;
    try destruct (truthy _); simpl; rewrite ?requests_app; simpl;
    rewrite ?app_nil_r; reflexivity.
Qed.

(** ** behavior_tester.py *)

(** The answer is not JSON: the handler logs the exception. *)
Lemma behavior_tester_undecodable (w : world) (m : decode_msg) :
  is_connected w = true ->
  Json.loads (limits w) (respond w 0 behavior_tester.BEHAVIOR_TEST_CODE)
    = Raise (JSONDecodeError m) ->
  run behavior_tester.main w =
    (Ok tt,
     {| trace := (behavior_tester_before ++
          [Log ERROR [Txt "Failed to parse response: "; FmtExn (JSONDecodeError m)];
           Log INFO [Txt "Testing completed."]])%list;
        sent := 1 |}).
Proof.
  intros Hw H. unfold behavior_tester.main. monad. rewrite Hw. simpl.
  rewrite H. reflexivity.
Qed.

(** The answer is an object whose [success] is not truthy: its
    [error] field is logged. *)
Lemma behavior_tester_failed (w : world) (d : list (string * value)) :
  is_connected w = true ->
  Json.loads (limits w) (respond w 0 behavior_tester.BEHAVIOR_TEST_CODE) = Ok (VDict d) ->
  truthy (field d "success") = false ->
  run behavior_tester.main w =
    (Ok tt,
     {| trace := (behavior_tester_before ++
          [Log ERROR [Txt "Error: "; Fmt (field d "error")];
           Log INFO [Txt "Testing completed."]])%list;
        sent := 1 |}).
Proof.
  intros Hw H Hs. unfold behavior_tester.main. monad. rewrite Hw. simpl.
  rewrite H, get_dict, Hs. reflexivity.
Qed.

(** The answer is an object whose [success] is truthy and whose
    [result] is a string that is not JSON: the same handler logs the
    exception of the second decoding. *)
Lemma behavior_tester_inner_undecodable
    (w : world) (d : list (string * value)) (inner : string) (m : decode_msg) :
  is_connected w = true ->
  Json.loads (limits w) (respond w 0 behavior_tester.BEHAVIOR_TEST_CODE) = Ok (VDict d) ->
  truthy (field d "success") = true ->
  field d "result" = VStr inner ->
  Json.loads (limits w) inner = Raise (JSONDecodeError m) ->
  run behavior_tester.main w =
    (Ok tt,
     {| trace := (behavior_tester_before ++
          [Log ERROR [Txt "Failed to parse response: "; FmtExn (JSONDecodeError m)];
           Log INFO [Txt "Testing completed."]])%list;
        sent := 1 |}).
Proof.
  intros Hw H Hs Hr Hi. unfold behavior_tester.main. monad. rewrite Hw. simpl.
  rewrite H, !get_dict, Hs, Hr. simpl. rewrite Hi. reflexivity.
Qed.


(** Whatever the answer, behavior_tester.py sends its one request and
    only logs afterwards. *)
Lemma behavior_tester_requests (w : world) :
  is_connected w = true ->
  requests (events behavior_tester.main w)
    = [(ClientMethod "eval_ruby", behavior_tester.BEHAVIOR_TEST_CODE)].
Proof.
  intros Hw. unfold events, behavior_tester.main.
  match goal with
  | |- context [bind (client_eval_ruby _) ?k] => set (tail := k)
  end.
  assert (T : forall response, keeps same_requests (tail response)).
  { intros response. unfold tail, behavior_tester.report_property,
      logger_info, logger_error.
    only_logs. }
  unfold run, Client, client_is_connected, client_eval_ruby, logger_info, logger_error.
  unfold bind, emit, request. rewrite Hw. simpl.
  rewrite (T _ w _). reflexivity.
Qed.

(** ** Whole runs of the list-driven scripts *)

(** simple_ruby_eval.py, connected: the loop, then the closing record
    if the loop came to its end. *)
Lemma simple_ruby_eval_shape (w : world) :
  is_connected w = true ->
  run simple_ruby_eval.main w =
    match for_each simple_ruby_eval.EXAMPLES tt
            (fun example _ => simple_ruby_eval.run_example example) w examples_start with
    | (Ok _, st') =>
        (Ok tt,
         {| trace := (trace st' ++ [Log INFO [Txt "All examples completed."]])%list;
            sent := sent st' |})
    | (Raise e, st') => (Raise e, st')
    end.
Proof.
  intros Hw. unfold simple_ruby_eval.main. monad. rewrite Hw.
  cbv beta iota zeta delta [negb app trace sent start].
  fold examples_start.
  destruct (for_each _ _ _ w examples_start) as [[[]|e] st']; reflexivity.
Qed.

(** ruby_tester.py, connected: the loop, then the summary if the loop
    came to its end. *)
Lemma ruby_tester_shape (w : world) :
  is_connected w = true ->
  run ruby_tester.main w =
    match for_each ruby_tester.TEST_CASES 0 ruby_tester.run_test w tests_start with
    | (Ok success_count, st') =>
        (Ok tt,
         {| trace := (trace st' ++ [summary success_count])%list; sent := sent st' |})
    | (Raise e, st') => (Raise e, st')
    end.
Proof.
  intros Hw. unfold ruby_tester.main. monad. rewrite Hw.
  cbv beta iota zeta delta [negb app trace sent start].
  fold tests_start.
  destruct (for_each _ _ _ w tests_start) as [[n|e] st']; reflexivity.
Qed.

(** simple_ruby_eval.py over answerable answers. *)
Lemma simple_ruby_eval_answerable (w : world) :
  is_connected w = true ->
  forallb (answerable (limits w)) (answers w 0 (map code simple_ruby_eval.EXAMPLES)) = true ->
  exists t,
    run simple_ruby_eval.main w =
      (Ok tt,
       {| trace := (trace examples_start ++ t
                      ++ [Log INFO [Txt "All examples completed."]])%list;
          sent := List.length simple_ruby_eval.EXAMPLES |})
    /\ requests t = client_requests simple_ruby_eval.EXAMPLES.
Proof.
  intros Hw H. rewrite (simple_ruby_eval_shape w Hw).
  destruct (examples_loop simple_ruby_eval.EXAMPLES w examples_start H) as [t [E R]].
  rewrite E. exists t. split; [|exact R].
  cbv beta iota zeta delta [trace sent]. rewrite <- app_assoc. reflexivity.
Qed.

(** ruby_tester.py over answerable answers. *)
Lemma ruby_tester_answerable (w : world) :
  is_connected w = true ->
  forallb (answerable (limits w)) (answers w 0 (map code ruby_tester.TEST_CASES)) = true ->
  exists t,
    run ruby_tester.main w =
      (Ok tt,
       {| trace := (trace tests_start ++ t
            ++ [summary (List.length
                  (filter (passes (limits w)) (answers w 0 (map code ruby_tester.TEST_CASES))))])%list;
          sent := List.length ruby_tester.TEST_CASES |})
    /\ requests t = client_requests ruby_tester.TEST_CASES.
Proof.
  intros Hw H. rewrite (ruby_tester_shape w Hw).
  destruct (tests_loop ruby_tester.TEST_CASES w tests_start 0 H) as [t [E R]].
  rewrite E. exists t. split; [|exact R].
  cbv beta iota zeta delta [trace sent]. rewrite <- app_assoc. reflexivity.
Qed.

(** ** What each file sends *)

(** An example script without a connection: the error record, nothing else. *)
Lemma disconnected_run (f : file) (w : world) :
  is_example f = true ->
  is_connected w = false ->
  run (program f) w =
    (Ok tt,
     {| trace := [Connect "sketchup";
                  Log ERROR [Txt "Failed to connect to the SketchUp MCP server."]];
        sent := 0 |}).
Proof.
  intros Hf Hw.
  destruct f; try discriminate Hf;
    unfold program, simple_test.main, simple_ruby_eval.main, ruby_tester.main,
      behavior_tester.main, arts_and_crafts_cabinet.main;
    monad; rewrite Hw; reflexivity.
Qed.

Lemma simple_test_requests (w : world) :
  is_connected w = true ->
  requests (events simple_test.main w)
    = [(ClientMethod "eval_ruby", simple_test.CUBE_CODE)].
Proof.
  intros Hw. unfold events. rewrite (simple_test_run w Hw). cbv zeta.
  destruct (Json.loads (limits w) (respond w 0 simple_test.CUBE_CODE)) as [v|e];
    [destruct v | destruct e]; try reflexivity.
  simpl. unfold verdict. destruct (truthy _); reflexivity.
Qed.

Lemma cabinet_requests (w : world) :
  is_connected w = true ->
  requests (events arts_and_crafts_cabinet.main w)
    = [(ClientMethod "eval_ruby", arts_and_crafts_cabinet.CABINET_RUBY_CODE)].
Proof.
  intros Hw. unfold events. rewrite (cabinet_run w Hw). cbv zeta.
  destruct (Json.loads (limits w) (respond w 0 arts_and_crafts_cabinet.CABINET_RUBY_CODE)) as [v|e];
    [destruct v | destruct e]; try reflexivity.
  simpl. unfold verdict. destruct (truthy _); reflexivity.
Qed.

Lemma smoke_test_requests (w : world) :
  requests (events test_eval_ruby.toplevel w)
    = [(ServerFunction "eval_ruby" MockContext_new, test_eval_ruby.test_code)].
Proof.
  unfold events. rewrite smoke_test_run. cbv zeta.
  destruct (Json.loads (limits w) (respond w 0 test_eval_ruby.test_code)); reflexivity.
Qed.

(** A file that sends one request sends it whatever the answer is. *)
Lemma single_request (f : file) (w : world) :
  walks_list f = false ->
  (is_example f = true -> is_connected w = true) ->
  requests (events (program f) w) = file_requests f.
Proof.
  intros Hf Hw. destruct f; try discriminate Hf; simpl in Hw |- *.
  - apply simple_test_requests. auto.
  - apply behavior_tester_requests. auto.
  - apply cabinet_requests. auto.
  - apply smoke_test_requests.
Qed.

Lemma simple_ruby_eval_sends (w : world) :
  is_connected w = true ->
  (exists k, requests (events simple_ruby_eval.main w)
               = firstn k (client_requests simple_ruby_eval.EXAMPLES))
  /\ (outcome simple_ruby_eval.main w = Ok tt ->
      requests (events simple_ruby_eval.main w)
        = client_requests simple_ruby_eval.EXAMPLES).
Proof.
  intros Hw. unfold events, outcome. rewrite (simple_ruby_eval_shape w Hw).
  pose proof (for_each_sends_prefix _ _ run_example_requests
                simple_ruby_eval.EXAMPLES tt w examples_start) as [k Hk].
  pose proof (for_each_sends_all _ _ run_example_requests
                simple_ruby_eval.EXAMPLES tt w examples_start) as Hall.
  change (requests (trace examples_start)) with (@nil (entry * string)) in Hk, Hall.
  destruct (for_each _ _ _ w examples_start) as [[[]|e] st']; cbn [fst snd trace] in *.
  - split.
    + exists k. rewrite requests_app, Hk. apply app_nil_r.
    + intros _. rewrite requests_app, (Hall tt eq_refl). apply app_nil_r.
  - split; [exists k; exact Hk | discriminate].
Qed.

Lemma ruby_tester_sends (w : world) :
  is_connected w = true ->
  (exists k, requests (events ruby_tester.main w)
               = firstn k (client_requests ruby_tester.TEST_CASES))
  /\ (outcome ruby_tester.main w = Ok tt ->
      requests (events ruby_tester.main w)
        = client_requests ruby_tester.TEST_CASES).
Proof.
  intros Hw. unfold events, outcome. rewrite (ruby_tester_shape w Hw).
  pose proof (for_each_sends_prefix _ _ run_test_requests
                ruby_tester.TEST_CASES 0 w tests_start) as [k Hk].
  pose proof (for_each_sends_all _ _ run_test_requests
                ruby_tester.TEST_CASES 0 w tests_start) as Hall.
  change (requests (trace tests_start)) with (@nil (entry * string)) in Hk, Hall.
  destruct (for_each _ _ _ w tests_start) as [[n|e] st']; cbn [fst snd trace] in *.
  - split.
    + exists k. rewrite requests_app, Hk. apply app_nil_r.
    + intros _. rewrite requests_app, (Hall n eq_refl). apply app_nil_r.
  - split; [exists k; exact Hk | discriminate].
Qed.

Lemma client_requests_eq (f : file) (snippets : list snippet) :
  is_example f = true ->
  canned f = map code snippets ->
  file_requests f = client_requests snippets.
Proof.
  intros Hf Hc. unfold file_requests, client_requests. rewrite Hc, map_map.
  destruct f; try discriminate Hf; reflexivity.
Qed.

(** Whatever the answers, what a file sends is an initial part of its
    constant list. *)
Lemma sends_prefix (f : file) (w : world) :
  exists k, requests (events (program f) w) = firstn k (file_requests f).
Proof.
  destruct (is_example f) eqn:Hf.
  - destruct (is_connected w) eqn:Hw.
    + destruct (walks_list f) eqn:Hl.
      * destruct f; try discriminate Hl.
        -- rewrite (client_requests_eq SimpleRubyEval simple_ruby_eval.EXAMPLES) by reflexivity.
           apply (simple_ruby_eval_sends w Hw).
        -- rewrite (client_requests_eq RubyTester ruby_tester.TEST_CASES) by reflexivity.
           apply (ruby_tester_sends w Hw).
      * exists (List.length (file_requests f)).
        rewrite firstn_all. apply single_request; auto.
    + exists 0. unfold events. rewrite (disconnected_run f w Hf Hw). reflexivity.
  - exists (List.length (file_requests f)).
    rewrite firstn_all. apply single_request.
    + destruct f; try discriminate Hf; reflexivity.
    + intros H. congruence.
Qed.

(** A run that comes to its end with a connection has sent the whole list. *)
Lemma sends_all (f : file) (w : world) :
  (is_example f = true -> is_connected w = true) ->
  outcome (program f) w = Ok tt ->
  requests (events (program f) w) = file_requests f.
Proof.
  intros Hw Hok. destruct (walks_list f) eqn:Hl.
  - destruct f; try discriminate Hl.
    + rewrite (client_requests_eq SimpleRubyEval simple_ruby_eval.EXAMPLES) by reflexivity.
      apply (simple_ruby_eval_sends w (Hw eq_refl)). exact Hok.
    + rewrite (client_requests_eq RubyTester ruby_tester.TEST_CASES) by reflexivity.
      apply (ruby_tester_sends w (Hw eq_refl)). exact Hok.
  - apply single_request; auto.
Qed.

Lemma In_firstn {A} (k : nat) (l : list A) (x : A) :
  In x (firstn k l) -> In x l.
Proof.
  revert l. induction k as [|k IH]; intros [|y l]; simpl; try tauto.
  intros [H|H]; [left; exact H | right; apply IH; exact H].
Qed.

(** ** An answer a simple script does not cope with *)


(** An answer that is not answerable makes the script end with an
    exception. *)
Lemma unanswerable (l : Json.limits) (response : string) :
  answerable l response = false -> exists e, escapes l response = Some e.
Proof.
  unfold answerable, escapes.
  destruct (Json.loads l response) as [v|e]; [destruct v | destruct e];
    intros H; try discriminate H; eexists; reflexivity.
Qed.











(** ** Records a loop never writes *)

Lemma adds_only_refl (P : event -> bool) (st : state) : adds_only P st st.
Proof. exists []. split; [symmetry; apply app_nil_r | reflexivity]. Qed.

Lemma adds_only_trans (P : event -> bool) (a b c : state) :
  adds_only P a b -> adds_only P b c -> adds_only P a c.
Proof.
  intros [t1 [E1 F1]] [t2 [E2 F2]]. exists (t1 ++ t2)%list. split.
  - rewrite E2, E1, app_assoc. reflexivity.
  - rewrite forallb_app, F1, F2. reflexivity.
Qed.

Lemma emit_adds_only (P : event -> bool) (e : event) :
  P e = true -> keeps (adds_only P) (emit e).
Proof.
  intros H w st. exists [e]. split; [reflexivity|]. simpl. rewrite H. reflexivity.
Qed.

Lemma request_adds_only (P : event -> bool) (via : entry) (payload : string) :
  P (Request via payload) = true -> keeps (adds_only P) (request via payload).
Proof.
  intros H w st. exists [Request via payload]. split; [reflexivity|].
  simpl. rewrite H. reflexivity.
Qed.

(** Decomposes a statement into its parts and checks each record it
    can write against [P]. *)
Ltac adds_steps P :=
  repeat first
    [ apply (emit_adds_only P); reflexivity
    | apply (request_adds_only P); reflexivity
    | apply (keeps_ret _ (adds_only_refl P))
    | apply (keeps_eval _ (adds_only_refl P))
    | apply (keeps_json_loads _ (adds_only_refl P))
    | apply (keeps_json_loads_value _ (adds_only_refl P))
    | apply (keeps_bind _ (adds_only_trans P)); [|intro]
    | apply (keeps_try _ (adds_only_trans P)); [|intro]
    | apply (keeps_for_each _ (adds_only_refl P) (adds_only_trans P)); intros
    | match goal with
      | |- keeps _ (if ?b then _ else _) => destruct b
      end
    | progress cbv beta zeta ].



Lemma adds_only_In (P : event -> bool) (st st' : state) (e : event) :
  adds_only P st st' ->
  forallb P (trace st) = true ->
  In e (trace st') -> P e = true.
Proof.
  intros [t [E F]] F0 H. rewrite E in H. apply in_app_or in H.
  destruct H as [H|H]; [exact (proj1 (forallb_forall P _) F0 e H)
                       | exact (proj1 (forallb_forall P _) F e H)].
Qed.

(** *** Running a script one statement at a time *)

Lemma bind_emit {B} (e : event) (k : unit -> M B) (w : world) (st : state) :
  bind (emit e) k w st
    = k tt w {| trace := (trace st ++ [e])%list; sent := sent st |}.
Proof. reflexivity. Qed.

Lemma bind_is_connected {B} (k : bool -> M B) (w : world) (st : state) :
  bind client_is_connected k w st = k (is_connected w) w st.
Proof. reflexivity. Qed.

Lemma bind_request {B} (via : entry) (payload : string) (k : string -> M B)
    (w : world) (st : state) :
  bind (request via payload) k w st
    = k (respond w (sent st) payload) w
        {| trace := (trace st ++ [Request via payload])%list; sent := S (sent st) |}.
Proof. reflexivity. Qed.

Lemma bind_try {A B} (body : M A) (handles : exn -> bool) (handler : exn -> M A)
    (k : A -> M B) (w : world) (st : state) :
  bind (try_except body handles handler) k w st
    = match try_except body handles handler w st with
      | (Ok a, st') => k a w st'
      | (Raise e, st') => (Raise e, st')
      end.
Proof. reflexivity. Qed.

Lemma try_eval_ok {A B} (a : A) (k : A -> M B) (handles : exn -> bool)
    (handler : exn -> M B) (w : world) (st : state) :
  try_except (bind (eval (Ok a)) k) handles handler w st
    = try_except (k a) handles handler w st.
Proof. reflexivity. Qed.

Lemma try_json_loads {B} (s : string) (k : value -> M B) (handles : exn -> bool)
    (handler : exn -> M B) (w : world) (st : state) :
  try_except (bind (json_loads s) k) handles handler w st
    = try_except (bind (eval (Json.loads (limits w) s)) k) handles handler w st.
Proof. reflexivity. Qed.

Lemma try_json_loads_value {B} (v : value) (k : value -> M B) (handles : exn -> bool)
    (handler : exn -> M B) (w : world) (st : state) :
  try_except (bind (json_loads_value v) k) handles handler w st
    = try_except (bind (eval (Json.loads_value (limits w) v)) k) handles handler w st.
Proof. reflexivity. Qed.

Lemma try_emit {B} (e : event) (k : unit -> M B) (handles : exn -> bool)
    (handler : exn -> M B) (w : world) (st : state) :
  try_except (bind (emit e) k) handles handler w st
    = try_except (k tt) handles handler w
        {| trace := (trace st ++ [e])%list; sent := sent st |}.
Proof. reflexivity. Qed.

(** behavior_tester.py on an object whose [success] is truthy and
    whose [result] decodes: the record after the request is the header
    of the report. *)
Lemma behavior_tester_success_branch
    (w : world) (d : list (string * value)) (behavior_data : value) :
  is_connected w = true ->
  Json.loads (limits w) (respond w 0 behavior_tester.BEHAVIOR_TEST_CODE) = Ok (VDict d) ->
  truthy (field d "success") = true ->
  Json.loads_value (limits w) (field d "result") = Ok behavior_data ->
  exists t,
    events behavior_tester.main w =
      (behavior_tester_before
         ++ Log INFO [Txt "Available methods on Behavior object:"] :: t)%list.
Proof.
  intros Hw H Hs Hr.
  unfold events, run, behavior_tester.main, Client, client_eval_ruby.
  unfold logger_info at 1 2 3 4 5.
  rewrite bind_emit, bind_is_connected, Hw. cbn [negb].
  rewrite !bind_emit, bind_request, bind_try.
  cbn [sent start]. rewrite try_json_loads, H, try_eval_ok, get_dict, try_eval_ok, Hs.
  rewrite get_dict, try_eval_ok, try_json_loads_value, Hr, try_eval_ok.
  unfold logger_info at 1. rewrite try_emit.
  match goal with
  | |- context [try_except ?body ?h ?hd w ?st1] =>
      assert (K : keeps (adds_only (fun _ => true)) (try_except body h hd));
      [ unfold behavior_tester.report_property, logger_info, logger_error;
        adds_steps (fun _ : event => true)
      | destruct (K w st1) as [t [E _]];
        destruct (try_except body h hd w st1) as [[[]|e] st'] ]
  end; unfold emit; cbn [snd trace sent start app] in E |- *; rewrite E.
  - exists (t ++ [Log INFO [Txt "Testing completed."]])%list.
    unfold behavior_tester_before. rewrite <- ?app_assoc. reflexivity.
  - exists t. unfold behavior_tester_before. rewrite <- ?app_assoc. reflexivity.
Qed.

(** ** The list-driven scripts, whatever the answers *)



(** *** The records of the turns *)














(** ** C1: the [success] field *)

(** C1, as amended: for an answer that decodes to an object [d],
    simple_test, arts_and_crafts_cabinet, each turn of simple_ruby_eval
    and [test_ruby_code] of ruby_tester write one record: the [result]
    field at level INFO when [success] is truthy, the [error] field at
    level ERROR otherwise ([test_ruby_code] returns that truth value);
    behavior_tester logs the [error] field at level ERROR when [success]
    is not truthy, and when it is truthy passes the [result] field to
    [json.loads] and, once that has decoded it, logs the header of its
    report, not the field. *)
Theorem C1_success_field (w : world) (d : list (string * value)) :
  is_connected w = true ->
  (Json.loads (limits w) (respond w 0 simple_test.CUBE_CODE) = Ok (VDict d) ->
   run simple_test.main w =
     (Ok tt,
      {| trace :=
           [Connect "sketchup";
            Log INFO [Txt "Connected to SketchUp MCP server."];
            Log INFO [Txt "Creating a simple cube..."];
            Request (ClientMethod "eval_ruby") simple_test.CUBE_CODE;
            if truthy (field d "success")
            then Log INFO [Txt "Cube created successfully! Group ID: ";
                           Fmt (field d "result")]
            else Log ERROR [Txt "Failed to create cube: "; Fmt (field d "error")];
            Log INFO [Txt "Test completed."]];
         sent := 1 |}))
  /\ (Json.loads (limits w) (respond w 0 arts_and_crafts_cabinet.CABINET_RUBY_CODE) = Ok (VDict d) ->
      run arts_and_crafts_cabinet.main w =
        (Ok tt,
         {| trace :=
              [Connect "sketchup";
               Log INFO [Txt "Connected to SketchUp MCP server."];
               Log INFO [Txt "Creating arts and crafts cabinet..."];
               Request (ClientMethod "eval_ruby") arts_and_crafts_cabinet.CABINET_RUBY_CODE;
               if truthy (field d "success")
               then Log INFO [Txt "Cabinet created successfully! Result: ";
                              Fmt (field d "result")]
               else Log ERROR [Txt "Failed to create cabinet: "; Fmt (field d "error")];
               Log INFO [Txt "Example completed."]];
            sent := 1 |}))
  /\ (forall ex st,
        Json.loads (limits w) (respond w (sent st) (code ex)) = Ok (VDict d) ->
        simple_ruby_eval.run_example ex w st =
          (Ok tt,
           {| trace :=
                (trace st ++
                   [Log INFO [Txt "Running example: "; Fmt (VStr (name ex))];
                    Request (ClientMethod "eval_ruby") (code ex);
                    if truthy (field d "success")
                    then Log INFO [Txt "Result: "; Fmt (field d "result")]
                    else Log ERROR [Txt "Error: "; Fmt (field d "error")];
                    Log INFO [Txt (str_mul "-" 40)]])%list;
              sent := S (sent st) |}))
  /\ (forall tc st,
        Json.loads (limits w) (respond w (sent st) (code tc)) = Ok (VDict d) ->
        ruby_tester.test_ruby_code tc w st =
          (Ok (truthy (field d "success")),
           {| trace :=
                (trace st ++
                   [Log INFO [Txt "Testing: "; Fmt (VStr (name tc))];
                    Request (ClientMethod "eval_ruby") (code tc);
                    if truthy (field d "success")
                    then Log INFO [Txt "✅ SUCCESS: "; Fmt (field d "result")]
                    else Log ERROR [Txt "❌ ERROR: "; Fmt (field d "error")]])%list;
              sent := S (sent st) |}))
  /\ (Json.loads (limits w) (respond w 0 behavior_tester.BEHAVIOR_TEST_CODE) = Ok (VDict d) ->
      truthy (field d "success") = false ->
      run behavior_tester.main w =
        (Ok tt,
         {| trace :=
              [Connect "sketchup";
               Log INFO [Txt "Connected to SketchUp MCP server."];
               Log INFO [Txt "Testing component behavior methods..."];
               Request (ClientMethod "eval_ruby") behavior_tester.BEHAVIOR_TEST_CODE;
               Log ERROR [Txt "Error: "; Fmt (field d "error")];
               Log INFO [Txt "Testing completed."]];
            sent := 1 |}))
  /\ (Json.loads (limits w) (respond w 0 behavior_tester.BEHAVIOR_TEST_CODE) = Ok (VDict d) ->
      truthy (field d "success") = true ->
      forall behavior_data,
        Json.loads_value (limits w) (field d "result") = Ok behavior_data ->
        exists t,
          events behavior_tester.main w =
            ([Connect "sketchup";
              Log INFO [Txt "Connected to SketchUp MCP server."];
              Log INFO [Txt "Testing component behavior methods..."];
              Request (ClientMethod "eval_ruby") behavior_tester.BEHAVIOR_TEST_CODE;
              Log INFO [Txt "Available methods on Behavior object:"]] ++ t)%list).
Proof.
  intros Hw. split; [|split; [|split; [|split; [|split]]]].
  - intros H. rewrite (simple_test_run w Hw). cbv zeta. rewrite H. reflexivity.
  - intros H. rewrite (cabinet_run w Hw). cbv zeta. rewrite H. reflexivity.
  - intros ex st H. rewrite run_example_eq. cbv zeta. rewrite H.
    rewrite <- app_assoc. reflexivity.
  - intros tc st H. rewrite test_ruby_code_eq. cbv zeta. rewrite H.
    rewrite <- app_assoc. reflexivity.
  - intros H Hs. apply (behavior_tester_failed w d Hw H Hs).
  - intros H Hs behavior_data Hr.
    destruct (behavior_tester_success_branch w d behavior_data Hw H Hs Hr) as [t E].
    exists t. rewrite E. reflexivity.
Qed.

Lemma C1_witness :
  run simple_test.main (always true answer_ok) =
    (Ok tt,
     {| trace :=
          [Connect "sketchup";
           Log INFO [Txt "Connected to SketchUp MCP server."];
           Log INFO [Txt "Creating a simple cube..."];
           Request (ClientMethod "eval_ruby") simple_test.CUBE_CODE;
           Log INFO [Txt "Cube created successfully! Group ID: "; Fmt (VInt 42)];
           Log INFO [Txt "Test completed."]];
        sent := 1 |}).
Proof.
  exact (proj1 (C1_success_field (always true answer_ok)
                  [("success", VBool true); ("result", VInt 42)] eq_refl) eq_refl).
Defined.

(** behavior_tester.py on a well-formed successful answer. *)
Lemma behavior_tester_success_run :
  run behavior_tester.main (always true answer_behavior) =
    (Ok tt,
     {| trace :=
          [Connect "sketchup";
           Log INFO [Txt "Connected to SketchUp MCP server."];
           Log INFO [Txt "Testing component behavior methods..."];
           Request (ClientMethod "eval_ruby") behavior_tester.BEHAVIOR_TEST_CODE;
           Log INFO [Txt "Available methods on Behavior object:"];
           Log INFO [Txt "  - "; Fmt (VStr "snapto")];
           Log INFO [Txt "
Property test results:"];
           Log INFO [Txt "  - "; Fmt (VStr "snapto"); Txt ": EXISTS (";
                     Fmt (VStr "readable, writable"); Txt ")"];
           Log INFO [Txt "Testing completed."]];
        sent := 1 |}).
Proof. vm_compute. reflexivity. Qed.

(** C1 fails for behavior_tester: the answer decodes to an object whose
    [success] is [true], the script runs to its end, and no record of
    its log holds the [result] field. *)
Lemma C1_counterexample :
  let w := always true answer_behavior in
  let d := [("success", VBool true); ("result", VStr behavior_report)] in
  Json.loads (limits w) (respond w 0 behavior_tester.BEHAVIOR_TEST_CODE) = Ok (VDict d)
  /\ truthy (field d "success") = true
  /\ outcome behavior_tester.main w = Ok tt
  /\ ~ (exists lvl msg,
          In (Log lvl msg) (events behavior_tester.main w)
          /\ In (Fmt (field d "result")) msg).
Proof.
  cbv zeta. split; [vm_compute; reflexivity|].
  split; [reflexivity|].
  unfold outcome, events. rewrite behavior_tester_success_run.
  split; [reflexivity|].
  intros [lvl [msg [Hev Hmsg]]].
  cbn [snd trace In] in Hev.
  repeat (destruct Hev as [Hev|Hev]; [try discriminate Hev; inversion Hev; subst msg|]);
    try contradiction;
    cbn [In] in Hmsg;
    repeat (destruct Hmsg as [Hmsg|Hmsg]; [try discriminate Hmsg|]);
    try contradiction;
    vm_compute in Hmsg; discriminate Hmsg.
Qed.

(** ** C2: an answer that is not JSON *)

(** C2 fails in two ways.  A string of 1000 opening brackets is not
    JSON, yet [json.loads] raises [RecursionError] on it, which no
    handler catches: simple_test logs nothing about the answer and ends
    with that exception.  And a list-driven script that has logged
    'Failed to parse response' for one answer does not end normally
    when a later answer decodes to something that is not an object. *)
Lemma C2_counterexample :
  (let w := always true (str_mul "[" 1000) in
   Json.loads (limits w) (respond w 0 simple_test.CUBE_CODE) = Raise RecursionError
   /\ run simple_test.main w =
        (Raise RecursionError,
         {| trace :=
              [Connect "sketchup";
               Log INFO [Txt "Connected to SketchUp MCP server."];
               Log INFO [Txt "Creating a simple cube..."];
               Request (ClientMethod "eval_ruby") simple_test.CUBE_CODE];
            sent := 1 |}))
  /\ (let w := scripted true ["oops"; "[]"] "{}" in
      Json.loads (limits w) "oops" = Raise (JSONDecodeError ExpectingValue)
      /\ outcome simple_ruby_eval.main w = Raise AttributeError
      /\ logs (events simple_ruby_eval.main w)
           = [(INFO, [Txt "Connected to SketchUp MCP server."]);
              (INFO, [Txt "Running example: "; Fmt (VStr "Create a line")]);
              (ERROR, [Txt "Failed to parse response: "; Fmt (VStr "oops")]);
              (INFO, [Txt (str_mul "-" 40)]);
              (INFO, [Txt "Running example: "; Fmt (VStr "Create a cube")])]).
Proof. cbv zeta. repeat split; vm_compute; reflexivity. Qed.



(** ** C3: exceptions that escape *)

(** The four simple scripts run to their end over answerable answers. *)
Lemma answerable_outcome (f : file) (w : world) :
  logs_result_field f = true ->
  forallb (answerable (limits w)) (answers w 0 (canned f)) = true ->
  outcome (program f) w = Ok tt.
Proof.
  intros Hf H. destruct (is_connected w) eqn:Hw.
  - destruct f; try discriminate Hf; unfold outcome; simpl program.
    + rewrite (simple_test_run w Hw). cbv zeta.
      cbn [canned answers forallb] in H. rewrite andb_true_r in H.
      unfold answerable in H.
      destruct (Json.loads (limits w) (respond w 0 simple_test.CUBE_CODE)) as [v|e];
        [destruct v | destruct e]; try discriminate H; reflexivity.
    + destruct (simple_ruby_eval_answerable w Hw H) as [t [E _]].
      rewrite E. reflexivity.
    + destruct (ruby_tester_answerable w Hw H) as [t [E _]].
      rewrite E. reflexivity.
    + rewrite (cabinet_run w Hw). cbv zeta.
      cbn [canned answers forallb] in H. rewrite andb_true_r in H.
      unfold answerable in H.
      destruct (Json.loads (limits w) (respond w 0 arts_and_crafts_cabinet.CABINET_RUBY_CODE))
        as [v|e]; [destruct v | destruct e]; try discriminate H; reflexivity.
  - unfold outcome. rewrite (disconnected_run f w); [reflexivity | | exact Hw].
    destruct f; try discriminate Hf; reflexivity.
Qed.

(** behavior_tester.py runs to its end over a declined answer. *)
Lemma declined_outcome (w : world) :
  declined (limits w) (respond w 0 behavior_tester.BEHAVIOR_TEST_CODE) = true ->
  outcome behavior_tester.main w = Ok tt.
Proof.
  intros H. unfold outcome. destruct (is_connected w) eqn:Hw.
  - unfold declined in H.
    destruct (Json.loads (limits w) (respond w 0 behavior_tester.BEHAVIOR_TEST_CODE))
      as [v|e] eqn:E; [destruct v | destruct e]; try discriminate H.
    + apply negb_true_iff in H.
      rewrite (behavior_tester_failed w entries Hw E H). reflexivity.
    + rewrite (behavior_tester_undecodable w m Hw E). reflexivity.
  - change behavior_tester.main with (program BehaviorTester).
    rewrite (disconnected_run BehaviorTester w eq_refl Hw). reflexivity.
Qed.







(** ** C5 and C6: the payloads and the entry point *)

Lemma payloads_of_file (f : file) : map snd (file_requests f) = canned f.
Proof. unfold file_requests. rewrite map_map. simpl. apply map_id. Qed.


(** C5 fails for simple_ruby_eval: two connected runs of the same
    script send different sequences of payloads, three when every
    answer is an object, one when the first answer is an array. *)
Lemma C5_counterexample :
  let w1 := always true "{}" in
  let w2 := always true "[]" in
  is_connected w1 = is_connected w2
  /\ payloads (events simple_ruby_eval.main w1) = map code simple_ruby_eval.EXAMPLES
  /\ payloads (events simple_ruby_eval.main w2)
       = firstn 1 (map code simple_ruby_eval.EXAMPLES)
  /\ payloads (events simple_ruby_eval.main w1)
       <> payloads (events simple_ruby_eval.main w2).
Proof.
  cbv zeta.
  assert (E1 : payloads (events simple_ruby_eval.main (always true "{}"))
               = map code simple_ruby_eval.EXAMPLES) by (vm_compute; reflexivity).
  assert (E2 : payloads (events simple_ruby_eval.main (always true "[]"))
               = firstn 1 (map code simple_ruby_eval.EXAMPLES)) by (vm_compute; reflexivity).
  repeat split; try assumption.
  rewrite E1, E2. intros H. apply (f_equal (@List.length string)) in H.
  discriminate H.
Qed.

(** C5, as amended: whatever the answers, the payloads a file sends are
    an initial part of its constant list, in the list's order; for a
    file that sends one request, and for any two runs that come to
    their end, two runs with the same connection state send the same
    payloads. *)
Theorem C5_payloads (f : file) (w1 w2 : world) :
  is_connected w1 = is_connected w2 ->
  (exists k, payloads (events (program f) w1) = firstn k (canned f))
  /\ (walks_list f = false ->
      payloads (events (program f) w1) = payloads (events (program f) w2))
  /\ (outcome (program f) w1 = Ok tt ->
      outcome (program f) w2 = Ok tt ->
      payloads (events (program f) w1) = payloads (events (program f) w2)).
Proof.
  intros Hc. unfold payloads. split; [|split].
  - destruct (sends_prefix f w1) as [k Hk]. exists k.
    rewrite Hk, <- firstn_map, payloads_of_file. reflexivity.
  - intros Hl. destruct (is_example f) eqn:Hf.
    + destruct (is_connected w2) eqn:H2.
      * rewrite !single_request by auto. reflexivity.
      * unfold events. rewrite !(disconnected_run f) by assumption. reflexivity.
    + rewrite !single_request by (auto || congruence). reflexivity.
  - intros O1 O2. destruct (is_example f) eqn:Hf.
    + destruct (is_connected w2) eqn:H2.
      * rewrite !sends_all by auto. reflexivity.
      * unfold events. rewrite !(disconnected_run f) by assumption. reflexivity.
    + rewrite !sends_all by (auto || congruence). reflexivity.
Qed.

Lemma C5_witness :
  (exists k, payloads (events (program RubyTester) (always true answer_ok))
             = firstn k (canned RubyTester))
  /\ (walks_list RubyTester = false ->
      payloads (events (program RubyTester) (always true answer_ok))
        = payloads (events (program RubyTester) (always true "oops")))
  /\ (outcome (program RubyTester) (always true answer_ok) = Ok tt ->
      outcome (program RubyTester) (always true "oops") = Ok tt ->
      payloads (events (program RubyTester) (always true answer_ok))
        = payloads (events (program RubyTester) (always true "oops"))).
Proof.
  exact (C5_payloads RubyTester (always true answer_ok) (always true "oops") eq_refl).
Defined.

(** C6: every request in the trace of any run of any file goes through
    [eval_ruby], as a method of the client in the example scripts and
    as the server's function called with [MockContext()] in the smoke
    test, and carries one of the file's constant texts. *)
Theorem C6_single_entry_point (f : file) (w : world) (via : entry) (payload : string) :
  In (via, payload) (requests (events (program f) w)) ->
  entry_name via = "eval_ruby"
  /\ via = (if is_example f then ClientMethod "eval_ruby"
            else ServerFunction "eval_ruby" {| request_id := 1 |})
  /\ In payload (canned f).
Proof.
  intros H. destruct (sends_prefix f w) as [k Hk]. rewrite Hk in H.
  apply In_firstn in H. unfold file_requests in H.
  apply in_map_iff in H. destruct H as [c [E Hc]]. inversion E. subst.
  repeat split; [| |exact Hc]; destruct f; reflexivity.
Qed.

Lemma C6_witness :
  entry_name (ClientMethod "eval_ruby") = "eval_ruby"
  /\ ClientMethod "eval_ruby"
       = (if is_example SimpleTest then ClientMethod "eval_ruby"
          else ServerFunction "eval_ruby" {| request_id := 1 |})
  /\ In simple_test.CUBE_CODE (canned SimpleTest).
Proof.
  exact (C6_single_entry_point SimpleTest (always true "oops")
           (ClientMethod "eval_ruby") simple_test.CUBE_CODE (or_introl eq_refl)).
Defined.

(** ** C8: ruby_tester.py *)





(** ** C9: simple_ruby_eval.py *)




(** ** C10: the second decoding of behavior_tester.py *)

(** C10 fails for an inner text that is not JSON and on which
    [json.loads] raises something else than [JSONDecodeError]: with
    1000 opening brackets as [result], the outer answer decodes, the
    second [json.loads] raises [RecursionError], the handler does not
    take it, nothing is logged after the request and the exception
    leaves [main]. *)
Lemma C10_counterexample :
  let w := always true answer_inner_deep in
  Json.loads (limits w) (respond w 0 behavior_tester.BEHAVIOR_TEST_CODE)
    = Ok (VDict [("success", VBool true); ("result", VStr (str_mul "[" 1000))])
  /\ Json.loads (limits w) (str_mul "[" 1000) = Raise RecursionError
  /\ run behavior_tester.main w =
       (Raise RecursionError,
        {| trace :=
             [Connect "sketchup";
              Log INFO [Txt "Connected to SketchUp MCP server."];
              Log INFO [Txt "Testing component behavior methods..."];
              Request (ClientMethod "eval_ruby") behavior_tester.BEHAVIOR_TEST_CODE];
           sent := 1 |}).
Proof. cbv zeta. repeat split; vm_compute; reflexivity. Qed.



(** * Further properties *)

(** ** The report of behavior_tester.py *)

Lemma bind_eval {A B} (r : res A) (k : A -> M B) (w : world) (st : state) :
  bind (eval r) k w st
    = match r with
      | Ok a => k a w st
      | Raise e => (Raise e, st)
      end.
Proof. destruct r; reflexivity. Qed.

(** One line per property: [report_property] on an object. *)
Lemma report_property_eq (prop : string) (d : list (string * value))
    (w : world) (st : state) :
  behavior_tester.report_property prop (VDict d) w st =
    (Ok tt,
     {| trace :=
          (trace st ++
             [Log INFO
                (Txt "  - " :: Fmt (VStr prop) ::
                   (if truthy (field d "exists") then
                      if truthy (field d "error") then
                        [Txt ": EXISTS but ERROR: "; Fmt (field d "error")]
                      else
                        [Txt ": EXISTS (";
                         Fmt (VStr
                                (match truthy (field d "readable"),
                                       truthy (field d "writable") with
                                 | true, true => "readable, writable"
                                 | true, false => "readable"
                                 | false, true => "writable"
                                 | false, false => EmptyString
                                 end));
                         Txt ")"]
                    else [Txt ": DOES NOT EXIST"]))])%list;
        sent := sent st |}).
Proof.
  unfold behavior_tester.report_property, logger_info, bind, eval, emit,
    get, get_default, field.
  destruct (lookup "exists" d) as [v|]; [destruct (truthy v)|];
    try reflexivity.
  destruct (lookup "readable" d) as [r|]; destruct (lookup "writable" d) as [x|];
    destruct (lookup "error" d) as [e|];
    change (truthy VNone) with false; change (truthy (VBool false)) with false;
    repeat match goal with
           | |- context [truthy ?u] => is_var u; destruct (truthy u)
           end; reflexivity.
Qed.

(** [report_property] on anything but an object. *)
Lemma report_property_not_object (prop : string) (v : value) (w : world) (st : state) :
  is_object v = false ->
  behavior_tester.report_property prop v w st = (Raise AttributeError, st).
Proof.
  intros H. unfold behavior_tester.report_property.
  rewrite bind_eval. destruct v; try reflexivity. discriminate H.
Qed.

Lemma try_bind {A B} (m : M A) (k : A -> M B) (handles : exn -> bool)
    (handler : exn -> M B) (w : world) (st : state) :
  try_except (bind m k) handles handler w st
    = match m w st with
      | (Ok a, st') => try_except (k a) handles handler w st'
      | (Raise e, st') => if handles e then handler e w st' else (Raise e, st')
      end.
Proof. unfold try_except, bind. destruct (m w st) as [[a|e] st']; reflexivity. Qed.

(** The loop over the methods writes one line per item, in order. *)
Lemma methods_loop (ms : list value) :
  forall (w : world) (st : state),
    for_each ms tt (fun method _ => logger_info [Txt "  - "; Fmt method]) w st
      = (Ok tt, {| trace := (trace st ++ map method_line ms)%list; sent := sent st |}).
Proof.
  induction ms as [|m ms IH]; intros w st.
  - simpl. unfold ret. rewrite app_nil_r. destruct st; reflexivity.
  - cbn [for_each map]. unfold logger_info at 1. rewrite bind_emit, IH.
    cbn [trace sent]. rewrite <- app_assoc. reflexivity.
Qed.

(** The loop over the properties, when every value is an object:
    one line per property, in order, each about the property's name. *)
Lemma properties_loop (ps : list (string * value)) :
  forall (w : world) (st : state),
    forallb is_object (map snd ps) = true ->
    exists t,
      for_each ps tt
        (fun pair _ => behavior_tester.report_property (fst pair) (snd pair)) w st
        = (Ok tt, {| trace := (trace st ++ t)%list; sent := sent st |})
      /\ map subject t = map (fun kv => Some (VStr (fst kv))) ps
      /\ count_errors t = 0.
Proof.
  induction ps as [|[k v] ps IH]; intros w st H.
  - exists []. simpl. unfold ret. rewrite app_nil_r. destruct st; auto.
  - cbn [map forallb snd] in H. apply andb_true_iff in H. destruct H as [Hv Hps].
    destruct v; try discriminate Hv.
    cbn [for_each fst snd]. unfold bind at 1. rewrite report_property_eq.
    match goal with |- context [for_each ps tt _ w ?s] =>
      destruct (IH w s Hps) as [t [E [S1 C]]]; rewrite E end.
    eexists. split; [|split].
    + cbn [trace sent]. rewrite <- app_assoc. reflexivity.
    + simpl. rewrite S1. reflexivity.
    + unfold count_errors in *. simpl. exact C.
Qed.

(** The loop over the properties stops with [AttributeError] at the
    first value that is not an object. *)
Lemma properties_loop_stops (ps : list (string * value)) :
  forall (w : world) (st : state),
    forallb is_object (map snd ps) = false ->
    fst (for_each ps tt
           (fun pair _ => behavior_tester.report_property (fst pair) (snd pair)) w st)
      = Raise AttributeError.
Proof.
  induction ps as [|[k v] ps IH]; intros w st H; [discriminate H|].
  cbn [map forallb snd] in H. cbn [for_each fst snd]. unfold bind at 1.
  destruct (is_object v) eqn:Hv.
  - destruct v; try discriminate Hv. rewrite report_property_eq. apply IH. exact H.
  - rewrite (report_property_not_object k v w st Hv). reflexivity.
Qed.

(** behavior_tester.py, once the answer and its [result] field have
    been decoded: the header, the report under the handler, and the
    closing record if the report came to its end. *)
Lemma behavior_tester_reaches_report
    (w : world) (d : list (string * value)) (behavior_data : value) :
  is_connected w = true ->
  Json.loads (limits w) (respond w 0 behavior_tester.BEHAVIOR_TEST_CODE) = Ok (VDict d) ->
  truthy (field d "success") = true ->
  Json.loads_value (limits w) (field d "result") = Ok behavior_data ->
  run behavior_tester.main w =
    match try_except (report_body behavior_data) is_JSONDecodeError
            (fun e => logger_error [Txt "Failed to parse response: "; FmtExn e])
            w {| trace := behavior_tester_header; sent := 1 |} with
    | (Ok _, st') =>
        (Ok tt,
         {| trace := (trace st' ++ [Log INFO [Txt "Testing completed."]])%list;
            sent := sent st' |})
    | (Raise e, st') => (Raise e, st')
    end.
Proof.
  intros Hw H Hs Hr.
  unfold run, behavior_tester.main, Client, client_eval_ruby.
  unfold logger_info at 1 2 3 4 5.
  rewrite bind_emit, bind_is_connected, Hw. cbn [negb].
  rewrite !bind_emit, bind_request, bind_try.
  cbn [sent start]. rewrite try_json_loads, H, try_eval_ok, get_dict, try_eval_ok, Hs.
  rewrite get_dict, try_eval_ok, try_json_loads_value, Hr, try_eval_ok.
  unfold logger_info at 1. rewrite try_emit.
  cbn [trace sent start app].
  change (try_except (report_body behavior_data) is_JSONDecodeError
            (fun e => logger_error [Txt "Failed to parse response: "; FmtExn e])
            w {| trace := behavior_tester_header; sent := 1 |})
    with (try_except ((fun _ : unit => report_body behavior_data) tt) is_JSONDecodeError
            (fun e => logger_error [Txt "Failed to parse response: "; FmtExn e])
            w {| trace := behavior_tester_header; sent := 1 |}).
  reflexivity.
Qed.

(** The report on a well-formed document, from any state. *)
Lemma report_body_eq
    (bd : list (string * value)) (all_methods : value) (ms : list value)
    (ps : list (string * value)) (w : world) (st : state) :
  lookup "all_methods" bd = Some all_methods ->
  iterate all_methods = Ok ms ->
  lookup "property_results" bd = Some (VDict ps) ->
  report_body (VDict bd) w st =
    for_each ps tt
      (fun pair _ => behavior_tester.report_property (fst pair) (snd pair)) w
      {| trace := (trace st ++ map method_line ms
                     ++ [Log INFO [Txt "
Property test results:"]])%list;
         sent := sent st |}.
Proof.
  intros Ha Hi Hp. unfold report_body.
  rewrite bind_eval. cbn [subscript]. rewrite Ha.
  rewrite bind_eval, Hi.
  match goal with
  | |- bind (for_each ms tt ?body) ?k w st = _ =>
      change (bind (for_each ms tt body) k w st)
        with (match for_each ms tt body w st with
              | (Ok a, st') => k a w st'
              | (Raise e, st') => (Raise e, st')
              end)
  end.
  rewrite methods_loop. unfold logger_info at 1. rewrite bind_emit.
  rewrite bind_eval. cbn [subscript]. rewrite Hp. rewrite bind_eval. cbn [items].
  cbn [trace sent]. rewrite <- app_assoc. reflexivity.
Qed.

(** The lines of the report never open with the text of the closing record. *)
Lemma report_property_writes_no_closing (prop : string) (v : value) :
  keeps (adds_only (fun e => negb (opens_with "Testing completed." e)))
    (behavior_tester.report_property prop v).
Proof.
  unfold behavior_tester.report_property, logger_info.
  adds_steps (fun e => negb (opens_with "Testing completed." e)).
Qed.

(** X1: behavior_tester on a well-formed report.  When the answer is
    an object with a truthy [success] whose [result] decodes to an
    object holding an iterable [all_methods] and an object
    [property_results] whose values are all objects, the script runs to
    its end and logs, after the header, one line per method in order,
    the second header, one INFO line per property in the order of the
    document, each about the property's name, and the closing record. *)
Theorem X1_behavior_report
    (w : world) (d bd : list (string * value)) (all_methods : value)
    (ms : list value) (ps : list (string * value)) :
  is_connected w = true ->
  Json.loads (limits w) (respond w 0 behavior_tester.BEHAVIOR_TEST_CODE) = Ok (VDict d) ->
  truthy (field d "success") = true ->
  Json.loads_value (limits w) (field d "result") = Ok (VDict bd) ->
  lookup "all_methods" bd = Some all_methods ->
  iterate all_methods = Ok ms ->
  lookup "property_results" bd = Some (VDict ps) ->
  forallb is_object (map snd ps) = true ->
  exists t,
    run behavior_tester.main w =
      (Ok tt,
       {| trace :=
            ([Connect "sketchup";
              Log INFO [Txt "Connected to SketchUp MCP server."];
              Log INFO [Txt "Testing component behavior methods..."];
              Request (ClientMethod "eval_ruby") behavior_tester.BEHAVIOR_TEST_CODE;
              Log INFO [Txt "Available methods on Behavior object:"]]
               ++ map (fun m => Log INFO [Txt "  - "; Fmt m]) ms
               ++ [Log INFO [Txt "
Property test results:"]]
               ++ t
               ++ [Log INFO [Txt "Testing completed."]])%list;
          sent := 1 |})
    /\ map subject t = map (fun kv => Some (VStr (fst kv))) ps
    /\ count_errors t = 0.
Proof.
  intros Hw H Hs Hr Ha Hi Hp Ho.
  rewrite (behavior_tester_reaches_report w d (VDict bd) Hw H Hs Hr).
  unfold try_except.
  rewrite (report_body_eq bd all_methods ms ps w _ Ha Hi Hp).
  match goal with |- context [for_each ps tt _ w ?s] =>
    destruct (properties_loop ps w s Ho) as [t [E [S1 C]]]; rewrite E end.
  exists t. split; [|split; assumption].
  cbn [trace sent]. unfold behavior_tester_header, behavior_tester_before, method_line.
  rewrite <- !app_assoc. reflexivity.
Qed.

Lemma X1_witness :
  exists t,
    run behavior_tester.main (always true answer_behavior) =
      (Ok tt,
       {| trace :=
            ([Connect "sketchup";
              Log INFO [Txt "Connected to SketchUp MCP server."];
              Log INFO [Txt "Testing component behavior methods..."];
              Request (ClientMethod "eval_ruby") behavior_tester.BEHAVIOR_TEST_CODE;
              Log INFO [Txt "Available methods on Behavior object:"]]
               ++ map (fun m => Log INFO [Txt "  - "; Fmt m]) [VStr "snapto"]
               ++ [Log INFO [Txt "
Property test results:"]]
               ++ t
               ++ [Log INFO [Txt "Testing completed."]])%list;
          sent := 1 |})
    /\ map subject t
       = map (fun kv => Some (VStr (fst kv)))
           [("snapto",
             VDict [("exists", VBool true); ("readable", VBool true);
                    ("writable", VBool true)])]
    /\ count_errors t = 0.
Proof.
  apply (X1_behavior_report (always true answer_behavior)
           [("success", VBool true); ("result", VStr behavior_report)]
           [("all_methods", VList [VStr "snapto"]);
            ("property_results",
             VDict [("snapto",
                     VDict [("exists", VBool true); ("readable", VBool true);
                            ("writable", VBool true)])])]
           (VList [VStr "snapto"]) [VStr "snapto"]
           [("snapto",
             VDict [("exists", VBool true); ("readable", VBool true);
                    ("writable", VBool true)])]);
    vm_compute; reflexivity.
Defined.

(** X2: behavior_tester on a report that lacks a key.  Without
    [all_methods] the run ends with [KeyError] right after the header;
    without [property_results] it ends with [KeyError] after the lines
    of the methods and the second header.  The handler does not catch
    it and the closing record is not written. *)
Theorem X2_report_missing_key
    (w : world) (d bd : list (string * value)) :
  is_connected w = true ->
  Json.loads (limits w) (respond w 0 behavior_tester.BEHAVIOR_TEST_CODE) = Ok (VDict d) ->
  truthy (field d "success") = true ->
  Json.loads_value (limits w) (field d "result") = Ok (VDict bd) ->
  (lookup "all_methods" bd = None ->
   run behavior_tester.main w =
     (Raise (KeyError "all_methods"),
      {| trace :=
           [Connect "sketchup";
            Log INFO [Txt "Connected to SketchUp MCP server."];
            Log INFO [Txt "Testing component behavior methods..."];
            Request (ClientMethod "eval_ruby") behavior_tester.BEHAVIOR_TEST_CODE;
            Log INFO [Txt "Available methods on Behavior object:"]];
         sent := 1 |}))
  /\ (forall all_methods ms,
        lookup "all_methods" bd = Some all_methods ->
        iterate all_methods = Ok ms ->
        lookup "property_results" bd = None ->
        run behavior_tester.main w =
          (Raise (KeyError "property_results"),
           {| trace :=
                ([Connect "sketchup";
                  Log INFO [Txt "Connected to SketchUp MCP server."];
                  Log INFO [Txt "Testing component behavior methods..."];
                  Request (ClientMethod "eval_ruby") behavior_tester.BEHAVIOR_TEST_CODE;
                  Log INFO [Txt "Available methods on Behavior object:"]]
                   ++ map (fun m => Log INFO [Txt "  - "; Fmt m]) ms
                   ++ [Log INFO [Txt "
Property test results:"]])%list;
              sent := 1 |})).
Proof.
  intros Hw H Hs Hr.
  rewrite (behavior_tester_reaches_report w d (VDict bd) Hw H Hs Hr).
  split.
  - intros Ha. unfold report_body. rewrite try_bind.
    unfold eval, subscript. rewrite Ha. reflexivity.
  - intros all_methods ms Ha Hi Hp. unfold report_body.
    rewrite try_bind. unfold eval at 1, subscript at 1. rewrite Ha.
    rewrite try_bind. unfold eval at 1. rewrite Hi.
    rewrite try_bind, methods_loop.
    unfold logger_info at 1. rewrite try_emit.
    rewrite try_bind. unfold eval at 1, subscript. rewrite Hp.
    cbn [is_JSONDecodeError trace sent].
    unfold behavior_tester_header, behavior_tester_before, method_line.
    rewrite <- !app_assoc. reflexivity.
Qed.

Lemma X2_witness :
  run behavior_tester.main
      (always true ("{" ++ quoted "success" ++ ": true, " ++ quoted "result" ++ ": "
                      ++ quoted "{}" ++ "}")) =
    (Raise (KeyError "all_methods"),
     {| trace :=
          [Connect "sketchup";
           Log INFO [Txt "Connected to SketchUp MCP server."];
           Log INFO [Txt "Testing component behavior methods..."];
           Request (ClientMethod "eval_ruby") behavior_tester.BEHAVIOR_TEST_CODE;
           Log INFO [Txt "Available methods on Behavior object:"]];
        sent := 1 |}).
Proof.
  apply (proj1 (X2_report_missing_key
                  (always true ("{" ++ quoted "success" ++ ": true, "
                                  ++ quoted "result" ++ ": " ++ quoted "{}" ++ "}"))
                  [("success", VBool true); ("result", VStr "{}")] []
                  eq_refl eq_refl eq_refl eq_refl));
    reflexivity.
Defined.

(** X3: behavior_tester on a [result] that is not a string.  With a
    truthy [success] and a [result] field that is absent or holds
    anything but a string, [json.loads] refuses it with [TypeError]:
    the run ends with that exception and logs nothing after the
    request. *)
Theorem X3_result_not_a_string (w : world) (d : list (string * value)) :
  is_connected w = true ->
  Json.loads (limits w) (respond w 0 behavior_tester.BEHAVIOR_TEST_CODE) = Ok (VDict d) ->
  truthy (field d "success") = true ->
  is_text (field d "result") = false ->
  run behavior_tester.main w =
    (Raise TypeError,
     {| trace :=
          [Connect "sketchup";
           Log INFO [Txt "Connected to SketchUp MCP server."];
           Log INFO [Txt "Testing component behavior methods..."];
           Request (ClientMethod "eval_ruby") behavior_tester.BEHAVIOR_TEST_CODE];
        sent := 1 |}).
Proof.
  intros Hw H Hs Ht.
  assert (Hr : Json.loads_value (limits w) (field d "result") = Raise TypeError).
  { destruct (field d "result"); try reflexivity. discriminate Ht. }
  unfold run, behavior_tester.main, Client, client_eval_ruby.
  unfold logger_info at 1 2 3 4 5.
  rewrite bind_emit, bind_is_connected, Hw. cbn [negb].
  rewrite !bind_emit, bind_request, bind_try.
  cbn [sent start]. rewrite try_json_loads, H, try_eval_ok, get_dict, try_eval_ok, Hs.
  rewrite get_dict, try_eval_ok, try_json_loads_value, Hr. rewrite try_bind. reflexivity.
Qed.

Lemma X3_witness :
  run behavior_tester.main (always true ("{" ++ quoted "success" ++ ": true}")) =
    (Raise TypeError,
     {| trace :=
          [Connect "sketchup";
           Log INFO [Txt "Connected to SketchUp MCP server."];
           Log INFO [Txt "Testing component behavior methods..."];
           Request (ClientMethod "eval_ruby") behavior_tester.BEHAVIOR_TEST_CODE];
        sent := 1 |}).
Proof.
  exact (X3_result_not_a_string (always true ("{" ++ quoted "success" ++ ": true}"))
           [("success", VBool true)] eq_refl eq_refl eq_refl eq_refl).
Defined.

Lemma forallb_method_lines (P : event -> bool) (ms : list value) :
  (forall m, P (method_line m) = true) ->
  forallb P (map method_line ms) = true.
Proof.
  intros H. induction ms as [|m ms IH]; [reflexivity|].
  simpl. rewrite H, IH. reflexivity.
Qed.

(** X4: behavior_tester on a property whose value is not an object.
    With a report as in X1 except that some value of
    [property_results] is not an object, the run ends with
    [AttributeError] and the closing record is never written. *)
Theorem X4_property_not_an_object
    (w : world) (d bd : list (string * value)) (all_methods : value)
    (ms : list value) (ps : list (string * value)) :
  is_connected w = true ->
  Json.loads (limits w) (respond w 0 behavior_tester.BEHAVIOR_TEST_CODE) = Ok (VDict d) ->
  truthy (field d "success") = true ->
  Json.loads_value (limits w) (field d "result") = Ok (VDict bd) ->
  lookup "all_methods" bd = Some all_methods ->
  iterate all_methods = Ok ms ->
  lookup "property_results" bd = Some (VDict ps) ->
  forallb is_object (map snd ps) = false ->
  outcome behavior_tester.main w = Raise AttributeError
  /\ forall lvl, ~ In (Log lvl [Txt "Testing completed."]) (events behavior_tester.main w).
Proof.
  intros Hw H Hs Hr Ha Hi Hp Ho. unfold outcome, events.
  rewrite (behavior_tester_reaches_report w d (VDict bd) Hw H Hs Hr).
  unfold try_except.
  rewrite (report_body_eq bd all_methods ms ps w _ Ha Hi Hp).
  match goal with |- context [for_each ps tt ?body w ?s] =>
    pose proof (properties_loop_stops ps w s Ho) as E;
    pose proof (keeps_for_each _ (adds_only_refl _) (adds_only_trans _) body ps
                  (fun pair _ =>
                     report_property_writes_no_closing (fst pair) (snd pair))
                  tt w s) as K;
    destruct (for_each ps tt body w s) as [[[]|e] st']
  end; cbn [fst snd] in E, K; [discriminate E|].
  inversion E. subst e. cbn [is_JSONDecodeError fst snd].
  split; [reflexivity|].
  intros lvl Hin.
  assert (F : negb (opens_with "Testing completed." (Log lvl [Txt "Testing completed."]))
              = true).
  { apply (adds_only_In _ _ _ _ K); [|exact Hin].
    cbn [trace]. unfold behavior_tester_header, behavior_tester_before.
    rewrite !forallb_app, forallb_method_lines by reflexivity. reflexivity. }
  discriminate F.
Qed.

Lemma X4_witness :
  let answer :=
    "{" ++ quoted "success" ++ ": true, " ++ quoted "result" ++ ": "
      ++ dq ++ "{\" ++ dq ++ "all_methods\" ++ dq ++ ": [], \" ++ dq
      ++ "property_results\" ++ dq ++ ": {\" ++ dq ++ "snapto\" ++ dq ++ ": 1}}"
      ++ dq ++ "}" in
  outcome behavior_tester.main (always true answer) = Raise AttributeError
  /\ forall lvl,
       ~ In (Log lvl [Txt "Testing completed."])
            (events behavior_tester.main (always true answer)).
Proof.
  cbv zeta.
  apply (X4_property_not_an_object _
           [("success", VBool true);
            ("result", VStr ("{" ++ quoted "all_methods" ++ ": [], "
                               ++ quoted "property_results" ++ ": {"
                               ++ quoted "snapto" ++ ": 1}}"))]
           [("all_methods", VList []); ("property_results", VDict [("snapto", VInt 1)])]
           (VList []) [] [("snapto", VInt 1)]);
    vm_compute; reflexivity.
Defined.

(** X5: [report_property] writes exactly one line per property object
    and cannot fail on one: 'DOES NOT EXIST' when [exists] is absent or
    falsy; 'EXISTS but ERROR: e' when [error] is truthy, whatever
    [readable] and [writable] say; otherwise 'EXISTS (...)' naming
    [readable] then [writable], those of the two that are truthy, with
    empty parentheses when neither is.  On anything but an object it
    raises [AttributeError] and writes nothing. *)
Theorem X5_report_property (prop : string) (w : world) (st : state) :
  (forall d,
     behavior_tester.report_property prop (VDict d) w st =
       (Ok tt,
        {| trace :=
             (trace st ++
                [Log INFO
                   (Txt "  - " :: Fmt (VStr prop) ::
                      (if truthy (field d "exists") then
                         if truthy (field d "error") then
                           [Txt ": EXISTS but ERROR: "; Fmt (field d "error")]
                         else
                           [Txt ": EXISTS (";
                            Fmt (VStr
                                   (match truthy (field d "readable"),
                                          truthy (field d "writable") with
                                    | true, true => "readable, writable"
                                    | true, false => "readable"
                                    | false, true => "writable"
                                    | false, false => EmptyString
                                    end));
                            Txt ")"]
                       else [Txt ": DOES NOT EXIST"]))])%list;
           sent := sent st |}))
  /\ (forall v,
        is_object v = false ->
        behavior_tester.report_property prop v w st = (Raise AttributeError, st)).
Proof.
  split.
  - intros d. apply report_property_eq.
  - intros v H. apply report_property_not_object. exact H.
Qed.

Lemma X5_witness :
  behavior_tester.report_property "snapto" (VStr "yes") (always true "{}") start
    = (Raise AttributeError, start).
Proof.
  exact (proj2 (X5_report_property "snapto" (always true "{}") start)
           (VStr "yes") eq_refl).
Defined.

(** ** What [test_ruby_code] returns and what it logs *)


(** ** The ERROR records of ruby_tester.py *)

Lemma count_errors_app (t1 t2 : list event) :
  count_errors (t1 ++ t2) = count_errors t1 + count_errors t2.
Proof. unfold count_errors. rewrite filter_app, length_app. reflexivity. Qed.

(** Each turn that returns adds one to the count of successes or one
    ERROR record, never both. *)
Lemma tests_loop_errors (tcs : list snippet) :
  forall (w : world) (st st' : state) (n n' : nat),
    for_each tcs n ruby_tester.run_test w st = (Ok n', st') ->
    count_errors (trace st') + n' = count_errors (trace st) + n + List.length tcs.
Proof.
  induction tcs as [|tc tcs IH]; intros w st st' n n'.
  - cbn [for_each]. unfold ret. intros H. inversion H. subst. cbn [List.length]. lia.
  - cbn [for_each]. unfold bind at 1. rewrite run_test_eq, test_ruby_code_eq. cbv zeta.
    destruct (Json.loads (limits w) (respond w (sent st) (code tc))) as [v|e];
      [destruct v | destruct e]; try discriminate;
      intros H; apply IH in H; cbn [trace List.length] in H |- *;
      rewrite !count_errors_app in H.
    + unfold verdict in H. destruct (truthy (field entries "success"));
        cbn in H; lia.
    + cbn in H. lia.
Qed.

(** X7: in a run of ruby_tester that comes to its end with a
    connection, every test case either counts as a success or leaves
    one ERROR record: the count reported by the summary and the number
    of ERROR records add up to 6. *)
Theorem X7_errors_and_successes (w : world) :
  is_connected w = true ->
  outcome ruby_tester.main w = Ok tt ->
  exists success_count,
    last (events ruby_tester.main w) (Connect EmptyString)
      = Log INFO [Txt "Testing complete: "; Fmt (VInt (Z.of_nat success_count));
                  Txt "/"; Fmt (VInt 6); Txt " tests passed"]
    /\ count_errors (events ruby_tester.main w) + success_count = 6.
Proof.
  intros Hw. unfold outcome, events. rewrite (ruby_tester_shape w Hw).
  destruct (for_each ruby_tester.TEST_CASES 0 ruby_tester.run_test w tests_start)
    as [[n|e] st'] eqn:E; cbn [fst snd trace]; [|discriminate].
  intros _. exists n. split.
  - rewrite last_last. reflexivity.
  - apply tests_loop_errors in E. rewrite count_errors_app.
    change (count_errors (trace tests_start)) with 0 in E.
    change (List.length ruby_tester.TEST_CASES) with 6 in E.
    change (count_errors [summary n]) with 0. lia.
Qed.

Lemma X7_witness :
  let w := scripted true [answer_ok; answer_failed; "oops"] answer_ok in
  exists success_count,
    last (events ruby_tester.main w) (Connect EmptyString)
      = Log INFO [Txt "Testing complete: "; Fmt (VInt (Z.of_nat success_count));
                  Txt "/"; Fmt (VInt 6); Txt " tests passed"]
    /\ count_errors (events ruby_tester.main w) + success_count = 6.
Proof.
  cbv zeta.
  apply (X7_errors_and_successes
           (scripted true [answer_ok; answer_failed; "oops"] answer_ok));
    vm_compute; reflexivity.
Defined.

(** ** The closing record and the ERROR records of the single-request scripts *)

(** Settles membership of a record in a trace written out in full. *)
Ltac in_trace :=
  simpl; intuition (try discriminate; try congruence).


(** X9: in a run of simple_test or of arts_and_crafts_cabinet that
    comes to its end, no record is written at level ERROR exactly when
    the client is connected and the answer decodes to an object whose
    [success] is truthy. *)
Theorem X9_no_error_record (w : world) :
  (outcome simple_test.main w = Ok tt ->
   (count_errors (events simple_test.main w) = 0
    <-> is_connected w = true /\ passes (limits w) (respond w 0 simple_test.CUBE_CODE) = true))
  /\ (outcome arts_and_crafts_cabinet.main w = Ok tt ->
      (count_errors (events arts_and_crafts_cabinet.main w) = 0
       <-> is_connected w = true
           /\ passes (limits w) (respond w 0 arts_and_crafts_cabinet.CABINET_RUBY_CODE) = true)).
Proof.
  destruct (is_connected w) eqn:Hw.
  - split; unfold outcome, events, passes.
    + rewrite (simple_test_run w Hw). cbv zeta.
      destruct (Json.loads (limits w) (respond w 0 simple_test.CUBE_CODE)) as [v|e];
        [destruct v | destruct e]; unfold verdict;
        try destruct (truthy _); in_trace.
    + rewrite (cabinet_run w Hw). cbv zeta.
      destruct (Json.loads (limits w) (respond w 0 arts_and_crafts_cabinet.CABINET_RUBY_CODE))
        as [v|e]; [destruct v | destruct e]; unfold verdict;
        try destruct (truthy _); in_trace.
  - split; unfold outcome, events.
    + change simple_test.main with (program SimpleTest).
      rewrite (disconnected_run SimpleTest w eq_refl Hw). in_trace.
    + change arts_and_crafts_cabinet.main with (program ArtsAndCraftsCabinet).
      rewrite (disconnected_run ArtsAndCraftsCabinet w eq_refl Hw). in_trace.
Qed.

Lemma X9_witness :
  count_errors (events simple_test.main (always true answer_ok)) = 0
  <-> is_connected (always true answer_ok) = true
      /\ passes (limits (always true answer_ok))
           (respond (always true answer_ok) 0 simple_test.CUBE_CODE) = true.
Proof.
  exact (proj1 (X9_no_error_record (always true answer_ok)) eq_refl).
Defined.

(** ** Announcements and requests of the list-driven scripts *)

Lemma steps_app (announce : string) (t1 t2 : list event) :
  steps announce (t1 ++ t2) = (steps announce t1 ++ steps announce t2)%list.
Proof. unfold steps. apply flat_map_app. Qed.

Section LoopSteps.

Context {A St : Type}.
Variable body : A -> St -> M St.
Variable announce : string.
Variable block : A -> list (string + string).

(** Each turn contributes its block, whatever its outcome. *)
Hypothesis one_block_per_turn :
  forall x acc w st,
    steps announce (trace (snd (body x acc w st)))
      = (steps announce (trace st) ++ block x)%list.

Lemma for_each_steps (xs : list A) :
  forall acc w st,
    exists k,
      steps announce (trace (snd (for_each xs acc body w st)))
        = (steps announce (trace st) ++ flat_map block (firstn k xs))%list.
Proof.
  induction xs as [|x xs IH]; intros acc w st.
  - exists 0. simpl. symmetry. apply app_nil_r.
  - cbn [for_each]. unfold bind.
    pose proof (one_block_per_turn x acc w st) as Hx.
    destruct (body x acc w st) as [[acc'|e] st']; cbn [snd] in *.
    + destruct (IH acc' w st') as [k Hk].
      exists (S k). rewrite Hk, Hx, <- app_assoc. reflexivity.
    + exists 1. rewrite Hx. cbn [firstn flat_map]. rewrite app_nil_r. reflexivity.
Qed.

End LoopSteps.

Lemma run_example_steps (ex : snippet) (acc : unit) (w : world) (st : state) :
  steps "Running example: " (trace (snd (simple_ruby_eval.run_example ex w st)))
    = (steps "Running example: " (trace st) ++ snippet_steps ex)%list.
Proof.
  rewrite run_example_eq. cbv zeta.
  destruct (Json.loads (limits w) (respond w (sent st) (code ex))) as [v|e];
    [destruct v | destruct e]; cbn [snd trace]; unfold verdict;
    try destruct (truthy _); rewrite ?steps_app; rewrite <- ?app_assoc;
    apply f_equal; try (destruct (field entries "result")); reflexivity.
Qed.

Lemma run_test_steps (tc : snippet) (n : nat) (w : world) (st : state) :
  steps "Testing: " (trace (snd (ruby_tester.run_test tc n w st)))
    = (steps "Testing: " (trace st) ++ snippet_steps tc)%list.
Proof.
  rewrite run_test_eq, test_ruby_code_eq. cbv zeta.
  destruct (Json.loads (limits w) (respond w (sent st) (code tc))) as [v|e];
    [destruct v | destruct e]; cbn [snd trace]; unfold verdict;
    try destruct (truthy _); rewrite ?steps_app; rewrite <- ?app_assoc;
    apply f_equal; try (destruct (field entries "result")); reflexivity.
Qed.

(** X10: in any connected run of simple_ruby_eval or of ruby_tester,
    whatever the answers, every request is announced right before it
    is sent by the INFO record naming its snippet, and snippets are
    taken in the order of the list: the announcements and requests of
    the run are name, code, name, code, ... over an initial part of the
    list. *)
Theorem X10_announced_requests (w : world) :
  is_connected w = true ->
  (exists k,
     steps "Running example: " (events simple_ruby_eval.main w)
       = flat_map (fun s => [inl (name s); inr (code s)])
           (firstn k simple_ruby_eval.EXAMPLES))
  /\ (exists k,
        steps "Testing: " (events ruby_tester.main w)
          = flat_map (fun s => [inl (name s); inr (code s)])
              (firstn k ruby_tester.TEST_CASES)).
Proof.
  intros Hw. split; unfold events.
  - rewrite (simple_ruby_eval_shape w Hw).
    destruct (for_each_steps _ _ _ run_example_steps
                simple_ruby_eval.EXAMPLES tt w examples_start) as [k Hk].
    exists k.
    destruct (for_each _ _ _ w examples_start) as [[[]|e] st'];
      cbn [snd trace] in *; rewrite ?steps_app, Hk; [apply app_nil_r | reflexivity].
  - rewrite (ruby_tester_shape w Hw).
    destruct (for_each_steps _ _ _ run_test_steps
                ruby_tester.TEST_CASES 0 w tests_start) as [k Hk].
    exists k.
    destruct (for_each _ _ _ w tests_start) as [[n|e] st'];
      cbn [snd trace] in *; rewrite ?steps_app, Hk; [apply app_nil_r | reflexivity].
Qed.

Lemma X10_witness :
  let w := scripted true [answer_ok; "[]"] answer_ok in
  (exists k,
     steps "Running example: " (events simple_ruby_eval.main w)
       = flat_map (fun s => [inl (name s); inr (code s)])
           (firstn k simple_ruby_eval.EXAMPLES))
  /\ (exists k,
        steps "Testing: " (events ruby_tester.main w)
          = flat_map (fun s => [inl (name s); inr (code s)])
              (firstn k ruby_tester.TEST_CASES)).
Proof.
  exact (X10_announced_requests (scripted true [answer_ok; "[]"] answer_ok) eq_refl).
Defined.

(** ** What the files never do *)

Lemma printed_none (t : list event) :
  forallb (fun e => negb (is_print e)) t = true -> printed t = [].
Proof.
  induction t as [|e t IH]; [reflexivity|].
  cbn [forallb]. intros H. apply andb_true_iff in H. destruct H as [He Ht].
  unfold printed in *. cbn [flat_map]. rewrite (IH Ht).
  destruct e; try reflexivity. discriminate He.
Qed.

(** Decomposes a whole script into its statements and checks each
    event it can write against [P]. *)
Ltac writes_only P :=
  repeat first
    [ apply (emit_adds_only P); reflexivity
    | apply (request_adds_only P); reflexivity
    | apply (keeps_ret _ (adds_only_refl P))
    | apply (keeps_eval _ (adds_only_refl P))
    | apply (keeps_json_loads _ (adds_only_refl P))
    | apply (keeps_json_loads_value _ (adds_only_refl P))
    | apply (keeps_is_connected _ (adds_only_refl P))
    | apply (keeps_bind _ (adds_only_trans P)); [|intro]
    | apply (keeps_try _ (adds_only_trans P)); [|intro]
    | apply (keeps_for_each _ (adds_only_refl P) (adds_only_trans P)); intros
    | match goal with
      | |- keeps _ (if ?b then _ else _) => destruct b
      end
    | progress cbv beta zeta ].

Lemma examples_never_print (f : file) :
  is_example f = true ->
  keeps (adds_only (fun e => negb (is_print e))) (program f).
Proof.
  intros Hf. destruct f; try discriminate Hf;
    unfold program, simple_test.main, simple_ruby_eval.main,
      simple_ruby_eval.run_example, ruby_tester.main, ruby_tester.run_test,
      ruby_tester.test_ruby_code, behavior_tester.main,
      behavior_tester.report_property, arts_and_crafts_cabinet.main,
      Client, client_eval_ruby, logger_info, logger_error;
    writes_only (fun e => negb (is_print e)).
Qed.

(** X11: the example scripts report through the logger only and the
    smoke test through [print] only: no run of an example script
    prints anything, and no run of the smoke test writes a log record
    or opens a client connection. *)
Theorem X11_logger_or_print (w : world) :
  (forall f, is_example f = true -> printed (events (program f) w) = [])
  /\ logs (events test_eval_ruby.toplevel w) = []
  /\ (forall server_name, ~ In (Connect server_name) (events test_eval_ruby.toplevel w)).
Proof.
  split; [|split].
  - intros f Hf. apply printed_none.
    destruct (examples_never_print f Hf w start) as [t [E F]].
    unfold events, run. rewrite E. exact F.
  - unfold events. rewrite smoke_test_run. cbv zeta.
    destruct (Json.loads (limits w) (respond w 0 test_eval_ruby.test_code)); reflexivity.
  - intros server_name. unfold events. rewrite smoke_test_run. cbv zeta.
    destruct (Json.loads (limits w) (respond w 0 test_eval_ruby.test_code)); in_trace.
Qed.

Lemma X11_witness :
  printed (events (program BehaviorTester) (always true answer_behavior)) = [].
Proof.
  exact (proj1 (X11_logger_or_print (always true answer_behavior))
           BehaviorTester eq_refl).
Defined.

(** ** A blank answer *)

Lemma skip_ws_blank (s : string) : blank s = true -> Json.skip_ws s = EmptyString.
Proof.
  induction s as [|c s IH]; [reflexivity|].
  cbn [blank Json.skip_ws]. intros H. apply andb_true_iff in H.
  destruct H as [Hc Hs]. rewrite Hc. apply IH. exact Hs.
Qed.

Lemma no_bom_in_blank (s : string) :
  blank s = true -> Json.strip_prefix Json.bom s = None.
Proof.
  destruct s as [|c s]; [reflexivity|].
  cbn [blank]. intros H. apply andb_true_iff in H. destruct H as [Hc _].
  unfold Json.bom. cbn [Json.strip_prefix].
  destruct (Ascii.eqb (ascii_of_nat 239) c) eqn:E; [|reflexivity].
  apply Ascii.eqb_eq in E. subst c. discriminate Hc.
Qed.

(** [json.loads] on an empty or all-whitespace string. *)
Lemma loads_blank (l : Json.limits) (s : string) :
  blank s = true -> Json.loads l s = Raise (JSONDecodeError ExpectingValue).
Proof.
  intros H. unfold Json.loads.
  rewrite (no_bom_in_blank s H), (skip_ws_blank s H).
  replace (2 * String.length s + 2) with (S (2 * String.length s + 1)) by lia.
  reflexivity.
Qed.

Lemma answers_all (P : string -> bool) (w : world) (codes : list string) :
  (forall n c, P (respond w n c) = true) ->
  forall n, forallb P (answers w n codes) = true.
Proof.
  intros H. induction codes as [|c codes IH]; intros n; [reflexivity|].
  cbn [answers forallb]. rewrite H, IH. reflexivity.
Qed.

(** X12: an answer that is empty or made only of spaces, tabs and line
    breaks is never decoded.  With a server that gives only such
    answers, every example script handles each of them as a parse
    failure and runs to its end, and the smoke test ends with the
    [JSONDecodeError] 'Expecting value'. *)
Theorem X12_blank_answers (w : world) :
  (forall n c, blank (respond w n c) = true) ->
  (forall n c, Json.loads (limits w) (respond w n c) = Raise (JSONDecodeError ExpectingValue))
  /\ (forall f, is_example f = true -> outcome (program f) w = Ok tt)
  /\ outcome test_eval_ruby.toplevel w = Raise (JSONDecodeError ExpectingValue).
Proof.
  intros H.
  assert (L : forall n c,
             Json.loads (limits w) (respond w n c) = Raise (JSONDecodeError ExpectingValue)).
  { intros n c. apply loads_blank, H. }
  split; [exact L|]. split.
  - intros f Hf. destruct (logs_result_field f) eqn:Hl.
    + apply (answerable_outcome f w Hl). apply answers_all.
      intros n c. unfold answerable. rewrite L. reflexivity.
    + destruct f; try discriminate Hl; try discriminate Hf.
      apply declined_outcome. unfold declined. rewrite L. reflexivity.
  - unfold outcome. rewrite smoke_test_run. cbv zeta. rewrite L. reflexivity.
Qed.

Lemma X12_witness :
  (forall n c, Json.loads (limits (always true "  ")) (respond (always true "  ") n c)
               = Raise (JSONDecodeError ExpectingValue))
  /\ (forall f, is_example f = true -> outcome (program f) (always true "  ") = Ok tt)
  /\ outcome test_eval_ruby.toplevel (always true "  ")
     = Raise (JSONDecodeError ExpectingValue).
Proof.
  exact (X12_blank_answers (always true "  ") (fun _ _ => eq_refl)).
Defined.

(** ** A report that cannot be walked *)

(** X13: behavior_tester on a report that is not an object, or whose
    [all_methods] is not a list, a string or an object: the run ends
    with [TypeError] right after the header of the report, which the
    handler does not catch. *)
Theorem X13_report_not_iterable
    (w : world) (d : list (string * value)) (behavior_data : value) :
  is_connected w = true ->
  Json.loads (limits w) (respond w 0 behavior_tester.BEHAVIOR_TEST_CODE) = Ok (VDict d) ->
  truthy (field d "success") = true ->
  Json.loads_value (limits w) (field d "result") = Ok behavior_data ->
  (is_object behavior_data = false
   \/ exists bd all_methods,
        behavior_data = VDict bd
        /\ lookup "all_methods" bd = Some all_methods
        /\ is_iterable all_methods = false) ->
  run behavior_tester.main w =
    (Raise TypeError,
     {| trace :=
          [Connect "sketchup";
           Log INFO [Txt "Connected to SketchUp MCP server."];
           Log INFO [Txt "Testing component behavior methods..."];
           Request (ClientMethod "eval_ruby") behavior_tester.BEHAVIOR_TEST_CODE;
           Log INFO [Txt "Available methods on Behavior object:"]];
        sent := 1 |}).
Proof.
  intros Hw H Hs Hr Hbad.
  rewrite (behavior_tester_reaches_report w d behavior_data Hw H Hs Hr).
  unfold report_body. rewrite try_bind. unfold eval at 1.
  destruct Hbad as [Hn | [bd [am [-> [Ha Hi]]]]].
  - destruct behavior_data; try reflexivity. discriminate Hn.
  - cbn [subscript]. rewrite Ha. rewrite try_bind. unfold eval at 1.
    destruct am; try reflexivity; discriminate Hi.
Qed.

Lemma X13_witness :
  run behavior_tester.main
      (always true ("{" ++ quoted "success" ++ ": true, " ++ quoted "result" ++ ": "
                      ++ quoted "[]" ++ "}")) =
    (Raise TypeError,
     {| trace :=
          [Connect "sketchup";
           Log INFO [Txt "Connected to SketchUp MCP server."];
           Log INFO [Txt "Testing component behavior methods..."];
           Request (ClientMethod "eval_ruby") behavior_tester.BEHAVIOR_TEST_CODE;
           Log INFO [Txt "Available methods on Behavior object:"]];
        sent := 1 |}).
Proof.
  exact (X13_report_not_iterable
           (always true ("{" ++ quoted "success" ++ ": true, " ++ quoted "result"
                           ++ ": " ++ quoted "[]" ++ "}"))
           [("success", VBool true); ("result", VStr "[]")] (VList [])
           eq_refl eq_refl eq_refl eq_refl (or_introl eq_refl)).
Defined.

(** ** The ERROR records of simple_ruby_eval.py *)

(** Each turn that returns leaves one ERROR record unless its answer passes. *)
Lemma examples_loop_errors (exs : list snippet) :
  forall (w : world) (st st' : state),
    for_each exs tt (fun ex _ => simple_ruby_eval.run_example ex) w st = (Ok tt, st') ->
    count_errors (trace st')
      = count_errors (trace st)
        + List.length (filter (fun r => negb (passes (limits w) r))
                         (answers w (sent st) (map code exs))).
Proof.
  induction exs as [|ex exs IH]; intros w st st'.
  - cbn [for_each]. unfold ret. intros H. inversion H. subst. simpl. lia.
  - cbn [for_each map answers filter]. unfold bind at 1.
    rewrite run_example_eq. cbv zeta. unfold passes at 1.
    destruct (Json.loads (limits w) (respond w (sent st) (code ex))) as [v|e];
      [destruct v | destruct e]; try discriminate;
      intros H; apply IH in H; cbn [trace sent] in H; rewrite H;
      rewrite !count_errors_app.
    + unfold verdict, count_errors at 2 3.
      destruct (truthy (field entries "success"));
        cbn [filter is_error_log List.length negb]; lia.
    + unfold count_errors at 2 3. cbn [filter is_error_log List.length negb]. lia.
Qed.

(** X14: in a connected run of simple_ruby_eval that comes to its end,
    the number of records written at level ERROR is the number of
    examples whose answer was not an object with a truthy [success]. *)
Theorem X14_errors_of_examples (w : world) :
  is_connected w = true ->
  outcome simple_ruby_eval.main w = Ok tt ->
  count_errors (events simple_ruby_eval.main w)
    = List.length (filter (fun r => negb (passes (limits w) r))
                     (answers w 0 (map code simple_ruby_eval.EXAMPLES))).
Proof.
  intros Hw. unfold outcome, events. rewrite (simple_ruby_eval_shape w Hw).
  destruct (for_each simple_ruby_eval.EXAMPLES tt
              (fun example _ => simple_ruby_eval.run_example example) w examples_start)
    as [[[]|e] st'] eqn:E; cbn [fst snd trace]; [|discriminate].
  intros _. apply examples_loop_errors in E.
  change (count_errors (trace examples_start)) with 0 in E.
  change (sent examples_start) with 0 in E.
  rewrite count_errors_app, E.
  change (count_errors [Log INFO [Txt "All examples completed."]]) with 0. lia.
Qed.

Lemma X14_witness :
  let w := scripted true [answer_failed; "oops"] answer_ok in
  count_errors (events simple_ruby_eval.main w)
    = List.length (filter (fun r => negb (passes (limits w) r))
                     (answers w 0 (map code simple_ruby_eval.EXAMPLES))).
Proof.
  cbv zeta.
  apply (X14_errors_of_examples (scripted true [answer_failed; "oops"] answer_ok));
    vm_compute; reflexivity.
Defined.

(** ** No snippet is sent twice *)

Lemma distinct_NoDup (l : list string) : distinct l = true -> NoDup l.
Proof.
  induction l as [|x l IH]; [constructor|].
  cbn [distinct]. intros H. apply andb_true_iff in H. destruct H as [Hx Hl].
  constructor; [|apply IH; exact Hl].
  intros Hin. apply negb_true_iff in Hx.
  assert (E : existsb (String.eqb x) l = true).
  { apply existsb_exists. exists x. split; [exact Hin | apply String.eqb_refl]. }
  congruence.
Qed.

Lemma NoDup_firstn_of {A} (k : nat) (l : list A) : NoDup l -> NoDup (firstn k l).
Proof.
  revert l. induction k as [|k IH]; intros l H; [constructor|].
  destruct l as [|x l]; [constructor|].
  inversion H as [|? ? Hx Hl]. subst. cbn [firstn]. constructor.
  - intros Hin. apply Hx. apply (In_firstn k l x Hin).
  - apply IH. exact Hl.
Qed.

Lemma canned_distinct (f : file) : distinct (canned f) = true.
Proof. destruct f; vm_compute; reflexivity. Qed.

(** X15: whatever the answers and the connection state, no run of any
    file sends the same Ruby text twice: each snippet of a list is
    evaluated at most once per run. *)
Theorem X15_no_payload_twice (f : file) (w : world) :
  NoDup (payloads (events (program f) w)).
Proof.
  destruct (sends_prefix f w) as [k Hk]. unfold payloads.
  rewrite Hk, <- firstn_map, payloads_of_file.
  apply NoDup_firstn_of, distinct_NoDup, canned_distinct.
Qed.
